(** * The ASK client (src/ask_api.py): a shallow embedding and its properties

    The class [ASK] wraps the catalogue API of the Kosovo Agency of
    Statistics.  This development embeds the parts of it that carry logic:
    the municipality registry built by [__init__], the path navigation
    ([go_down], [go_up]), the query construction ([clear_query],
    [set_query]) and the tabulation of a response ([get_data_as_df]).

    Conventions.
    - A Python [str] is the list of its Unicode code points ([pystr]); the
      literal [py "..."] decodes the UTF-8 bytes of a Rocq string.
    - A Python [dict] whose iteration order matters is an association list
      in insertion order; the two lookup tables of the client are [gmap]s.
    - A call that may raise returns an [outcome]; a method that mutates the
      client or prints is a function in the monad [M].
    - pandas and the HTTP transport are outside the class: the model states
      at each use which part of their behaviour it relies on.  The frame
      that [get_data_as_df] returns is modelled on the rows of the shape
      the API documents ([well_formed_row]); the statements on frames
      assume this shape.
    - Two builtins depend on the interpreter and are parameters of what
      uses them: [pd.to_datetime] on a boundary of [set_query], and [int]
      on a [str] in [get_data_as_df].  [to_datetime_iso] and [int_ascii]
      instantiate them in the closed examples, on strings on which they
      are the builtin.

    Part I holds the embedding, Part II the lemmas and the theorems on the
    claims C1 to C10 of the specification, followed by further properties
    of the code (X1 to X26): of the navigation, the registry, the query
    construction, the tabulation and the reading of the metadata of an
    endpoint ([get_variables], [get_available_months],
    [list_available_paths]), which take what [info] returned as an
    argument. *)

From Stdlib Require Import ZArith String Ascii DecimalString.
From stdpp Require Import base tactics option list sorting gmap.

Local Open Scope Z_scope.

(** * Part I: the embedding *)

(** ** Python strings *)

Abbreviation pystr := (list N).

(** UTF-8 decoding of a byte sequence into code points (1 to 4 byte forms). *)
Fixpoint utf8_decode (bs : list N) : list N :=
  match bs with
  | [] => []
  | b0 :: r0 =>
      if (b0 <? 128)%N then b0 :: utf8_decode r0
      else match r0 with
      | [] => []
      | b1 :: r1 =>
          if (b0 <? 224)%N
          then ((b0 - 192) * 64 + (b1 - 128))%N :: utf8_decode r1
          else match r1 with
          | [] => []
          | b2 :: r2 =>
              if (b0 <? 240)%N
              then ((b0 - 224) * 4096 + (b1 - 128) * 64 + (b2 - 128))%N
                     :: utf8_decode r2
              else match r2 with
              | [] => []
              | b3 :: r3 =>
                  ((b0 - 240) * 262144 + (b1 - 128) * 4096
                   + (b2 - 128) * 64 + (b3 - 128))%N :: utf8_decode r3
              end
          end
      end
  end.

Definition py (s : string) : pystr :=
  utf8_decode (N_of_ascii <$> list_ascii_of_string s).

(** [str.lower] on one code point of Basic Latin and Latin-1 Supplement, the
    blocks every registry name lives in; on a string of such code points
    [str.lower] works code point by code point.  Above U+00FF the mapping
    is that of the Unicode database of the interpreter (U+212A KELVIN SIGN
    is lowered to ["k"]), which the model does not follow: it leaves these
    code points as they are.  A statement on names that are not registry
    names assumes [latin1]. *)
Definition lower_cp (c : N) : N :=
  if ((65 <=? c) && (c <=? 90))%N then (c + 32)%N
  else if ((192 <=? c) && (c <=? 222) && negb (c =? 215))%N then (c + 32)%N
  else c.

Definition lower (s : pystr) : pystr := lower_cp <$> s.

(** A string of code points up to U+00FF. *)
Definition latin1 (s : pystr) : Prop := Forall (λ c, (c < 256)%N) s.

#[export] Instance latin1_dec s : Decision (latin1 s).
Proof. unfold latin1. apply _. Defined.

(** [str(n)] for an [int]. *)
Definition str_of_Z (z : Z) : pystr :=
  py (NilZero.string_of_int (Z.to_int z)).

(** [s.zfill(w)]: pad with ["0"] on the left up to width [w] (a sign, which
    [zfill] keeps in front, does not occur where the client calls it). *)
Definition zfill (w : nat) (s : pystr) : pystr :=
  replicate (w - length s) 48%N ++ s.

(** Code-point order, the order of Python's [<] on [str]. *)
Fixpoint str_leb (a b : pystr) : bool :=
  match a, b with
  | [], _ => true
  | _ :: _, [] => false
  | x :: a', y :: b' =>
      if (x <? y)%N then true else if (y <? x)%N then false else str_leb a' b'
  end.

(** ** The client object *)

(** One entry of [query["query"]]. *)
Record Selection := mkSelection
  { code : pystr;            (* "code" *)
    filter : pystr;          (* selection.filter *)
    values : list pystr }.   (* selection.values *)

(** [self.query]: the selections and [response.format]. *)
Record Query := mkQuery
  { query_items : list Selection;
    response_format : pystr }.

Record ASK := mkASK
  { lang : pystr;
    base_url : pystr;
    current_path : list pystr;
    query : Query;
    municipality_map : gmap pystr pystr;
    municipality_reverse_map : gmap pystr pystr }.

#[export] Instance Selection_eq_dec : EqDecision Selection.
Proof. solve_decision. Defined.
#[export] Instance Query_eq_dec : EqDecision Query.
Proof. solve_decision. Defined.

(** The dict literal of [__init__], in source order. *)
Definition municipality_items : list (pystr * pystr) :=
  [ (py "0", py "Deçan"); (py "1", py "Gjakovë"); (py "2", py "Gllogoc");
    (py "3", py "Gjilan"); (py "4", py "Dragash"); (py "5", py "Istog");
    (py "6", py "Kaçanik"); (py "7", py "Klinë");
    (py "8", py "Fushë Kosovë"); (py "9", py "Kamenicë");
    (py "10", py "Mitrovicë"); (py "11", py "Leposaviq");
    (py "12", py "Lipjan"); (py "13", py "Novobërdë");
    (py "14", py "Obiliq"); (py "15", py "Rahovec"); (py "16", py "Pejë");
    (py "17", py "Podujevë"); (py "18", py "Prishtinë");
    (py "19", py "Prizren"); (py "20", py "Skenderaj");
    (py "21", py "Shtime"); (py "22", py "Shtërpcë");
    (py "23", py "Suharekë"); (py "24", py "Ferizaj"); (py "25", py "Viti");
    (py "26", py "Vushtrri"); (py "27", py "Zubin Potok");
    (py "28", py "Zveqan"); (py "29", py "Malishevë"); (py "30", py "Junik");
    (py "31", py "Mamushë"); (py "32", py "Hani i Elezit");
    (py "33", py "Graçanicë"); (py "34", py "Ranillug");
    (py "35", py "Partesh"); (py "36", py "Kllokot");
    (py "37", py "Mitrovicë Veriore"); (py "38", py "Jashtë Kosovës");
    (py "39", py "Gjithsej") ].

(** A dict display [{k1: v1, ...}]: later entries overwrite earlier ones. *)
Definition dict_of_items (items : list (pystr * pystr)) : gmap pystr pystr :=
  foldl (λ m kv, <[kv.1 := kv.2]> m) ∅ items.

(** [{v.lower(): k for k, v in items}]. *)
Definition reverse_of_items (items : list (pystr * pystr))
  : gmap pystr pystr :=
  foldl (λ m kv, <[lower kv.2 := kv.1]> m) ∅ items.

Definition empty_query : Query :=
  {| query_items := []; response_format := py "json" |}.

(** [ASK.__init__(lang)]. *)
Definition init (lang : pystr) : ASK :=
  {| lang := lang;
     base_url := py "http://askdata.rks-gov.net/api/v1/" ++ lang
                   ++ py "/ASKdata";
     current_path := [];
     query := empty_query;
     municipality_map := dict_of_items municipality_items;
     municipality_reverse_map := reverse_of_items municipality_items |}.

(** [get_municipality_code]: [self.municipality_reverse_map.get(m.lower())]. *)
Definition get_municipality_code (self : ASK) (municipality : pystr)
  : option pystr :=
  municipality_reverse_map self !! lower municipality.

(** ** Exceptions, outcomes and the method monad *)

Inductive exn :=
  | KeyError | TypeError | IndexError | ValueError | AttributeError.

#[export] Instance exn_eq_dec : EqDecision exn.
Proof. solve_decision. Defined.

Inductive outcome (A : Type) :=
  | Return (a : A)
  | Raise (e : exn).
Arguments Return {A} a.
Arguments Raise {A} e.

#[export] Instance outcome_ret : MRet outcome := λ A a, Return a.
#[export] Instance outcome_bind : MBind outcome := λ A B f m,
  match m with Return a => f a | Raise e => Raise e end.
#[export] Instance outcome_fmap : FMap outcome := λ A B f m,
  match m with Return a => Return (f a) | Raise e => Raise e end.

(** A method call: from the client before the call to the value returned (or
    the exception raised), the client after the call and the lines printed.
    An exception keeps the mutations made before it was raised. *)
Definition M (A : Type) : Type := ASK → outcome A * ASK * list pystr.

#[export] Instance M_ret : MRet M := λ A a self, (Return a, self, []).
#[export] Instance M_bind : MBind M := λ A B f m self,
  match m self with
  | (Return a, self', out) =>
      let '(r, self'', out') := f a self' in (r, self'', out ++ out')
  | (Raise e, self', out) => (Raise e, self', out)
  end.

Definition get_self : M ASK := λ self, (Return self, self, []).
Definition put_self (self' : ASK) : M unit := λ _, (Return (), self', []).
Definition print (line : pystr) : M unit := λ self, (Return (), self, [line]).
Definition lift {A} (o : outcome A) : M A := λ self, (o, self, []).

Definition result_of {A} (m : M A) (self : ASK) : outcome A := (m self).1.1.
Definition self_after {A} (m : M A) (self : ASK) : ASK := (m self).1.2.
Definition printed {A} (m : M A) (self : ASK) : list pystr := (m self).2.

Definition set_current_path (p : list pystr) (self : ASK) : ASK :=
  {| lang := lang self; base_url := base_url self; current_path := p;
     query := query self; municipality_map := municipality_map self;
     municipality_reverse_map := municipality_reverse_map self |}.

Definition set_query_field (q : Query) (self : ASK) : ASK :=
  {| lang := lang self; base_url := base_url self;
     current_path := current_path self; query := q;
     municipality_map := municipality_map self;
     municipality_reverse_map := municipality_reverse_map self |}.

(** ** Path navigation *)

(** The slice [l[:stop]]: a negative [stop] counts from the end, and both
    ends clamp to the list. *)
Definition slice_to {A} (l : list A) (stop : Z) : list A :=
  if stop <? 0
  then take (Z.to_nat (Z.max 0 (Z.of_nat (length l) + stop))) l
  else take (Z.to_nat stop) l.

(** [go_down] with its positional arguments [args]:
    [self.current_path.extend(list(args))]. *)
Definition go_down (args : list pystr) : M unit :=
  self ← get_self;
  put_self (set_current_path (current_path self ++ args) self).

(** [go_up(levels)]: [self.current_path = self.current_path[:-levels]]. *)
Definition go_up (levels : Z) : M unit :=
  self ← get_self;
  put_self (set_current_path (slice_to (current_path self) (- levels)) self).

(** [get_url]: [base_url + '/' + '/'.join(current_path)]. *)
Fixpoint join (sep : pystr) (parts : list pystr) : pystr :=
  match parts with
  | [] => []
  | [p] => p
  | p :: rest => p ++ sep ++ join sep rest
  end.

Definition get_url (self : ASK) : pystr :=
  base_url self ++ py "/" ++ join (py "/") (current_path self).

(** The path invariant of the data model: no empty segment. *)
Definition path_ok (p : list pystr) : Prop := Forall (λ seg, seg ≠ []) p.

#[export] Instance path_ok_dec p : Decision (path_ok p).
Proof. unfold path_ok. apply _. Defined.

(** [suffix_removed n p p']: [p'] is [p] without its last [n] segments. *)
Definition suffix_removed (n : Z) (p p' : list pystr) : Prop :=
  ∃ tail, p = p' ++ tail ∧ Z.of_nat (length tail) = n.

(** ** Timestamps and month-end ranges *)

(** A [pandas.Timestamp] at midnight, which is what the documented
    ["YYYY-MM"] boundaries parse to: a calendar date. *)
Record Timestamp := mkTimestamp { ts_year : Z; ts_month : Z; ts_day : Z }.

#[export] Instance Timestamp_eq_dec : EqDecision Timestamp.
Proof. solve_decision. Defined.

Definition is_leap_year (y : Z) : bool :=
  (y mod 4 =? 0) && (negb (y mod 100 =? 0) || (y mod 400 =? 0)).

Definition days_in_month (y m : Z) : Z :=
  if m =? 2 then (if is_leap_year y then 29 else 28)
  else if (m =? 4) || (m =? 6) || (m =? 9) || (m =? 11) then 30
  else 31.

Definition ts_leb (a b : Timestamp) : bool :=
  if ts_year a <? ts_year b then true
  else if ts_year b <? ts_year a then false
  else if ts_month a <? ts_month b then true
  else if ts_month b <? ts_month a then false
  else ts_day a <=? ts_day b.

(** Months counted from year 0: the index of the month a date lies in, and
    the last day of the month with a given index. *)
Definition month_index (t : Timestamp) : Z := ts_year t * 12 + (ts_month t - 1).

Definition month_end (i : Z) : Timestamp :=
  let y := i / 12 in
  let m := i mod 12 + 1 in
  {| ts_year := y; ts_month := m; ts_day := days_in_month y m |}.

(** [pd.date_range(start, end, freq='M')]: frequency ['M'] is month END, so
    the range holds the last day of a month for every month whose last day
    lies between [start] and [end], both included. *)
Definition date_range_M (start end_ : Timestamp) : list Timestamp :=
  List.filter (λ t, ts_leb start t && ts_leb t end_)
    (month_end <$> seqZ (month_index start)
                        (month_index end_ - month_index start + 1)).

(** [d.strftime('%YM%m')]. *)
Definition strftime_YMm (t : Timestamp) : pystr :=
  str_of_Z (ts_year t) ++ py "M" ++ zfill 2 (str_of_Z (ts_month t)).

(** [[f"{year_str}M{str(m).zfill(2)}" for m in range(1, 13)]]. *)
Definition year_tokens (year_str : pystr) : list pystr :=
  (λ m, year_str ++ py "M" ++ zfill 2 (str_of_Z m)) <$> seqZ 1 12.

(** ** Sorted sets of strings *)

Definition str_le (a b : pystr) : Prop := str_leb a b.

#[export] Instance str_le_dec : RelDecision str_le.
Proof. intros a b. unfold str_le. apply _. Defined.

(** [sorted(list(set(xs)))]: the distinct elements in code-point order. *)
Definition sorted_set (xs : list pystr) : list pystr :=
  merge_sort str_le (remove_dups xs).

(** ** Arguments of [set_query] *)

(** [Union[List[str], str]]. *)
Inductive str_or_list :=
  | Str (s : pystr)
  | Strs (l : list pystr).

(** [Union[int, str]]. *)
Inductive int_or_str :=
  | Int (z : Z)
  | IStr (s : pystr).

Record set_query_args := mkArgs
  { municipalities : option str_or_list;
    months : option str_or_list;
    year : option int_or_str;
    start_date : option pystr;
    end_date : option pystr }.

(** Truth value of an argument in [if x:]: [None], [''] and [[]] are false. *)
Definition truthy_str (s : pystr) : bool := bool_decide (s ≠ []).

Definition truthy_str_or_list (a : option str_or_list) : bool :=
  match a with
  | None => false
  | Some (Str s) => truthy_str s
  | Some (Strs l) => bool_decide (l ≠ [])
  end.

Definition truthy_int_or_str (a : option int_or_str) : bool :=
  match a with
  | None => false
  | Some (Int z) => bool_decide (z ≠ 0)
  | Some (IStr s) => truthy_str s
  end.

(** [if isinstance(x, str): x = [x]]. *)
Definition listify (a : option str_or_list) : list pystr :=
  match a with
  | None => []
  | Some (Str s) => [s]
  | Some (Strs l) => l
  end.

(** [str(year)]. *)
Definition str_of_year (y : int_or_str) : pystr :=
  match y with Int z => str_of_Z z | IStr s => s end.

Definition not_found_warning (muni : pystr) : pystr :=
  py "Warning: Municipality '" ++ muni ++ py "' not found".

Definition komuna_selection (codes : list pystr) : Selection :=
  {| code := py "Komuna"; filter := py "item"; values := codes |}.

Definition viti_muaji_selection (tokens : list pystr) : Selection :=
  {| code := py "Viti-muaji"; filter := py "item"; values := tokens |}.

(** ** Query construction *)

(** [clear_query]. *)
Definition clear_query : M unit :=
  self ← get_self; put_self (set_query_field empty_query self).

(** [self.query["query"].append(sel)]. *)
Definition append_selection (sel : Selection) : M unit :=
  self ← get_self;
  put_self (set_query_field
              {| query_items := query_items (query self) ++ [sel];
                 response_format := response_format (query self) |} self).

(** The loop over [municipalities]: [municipality_codes] accumulates the
    codes found, a name without a (non-empty) code prints a warning. *)
Fixpoint resolve_municipalities (munis municipality_codes : list pystr)
  : M (list pystr) :=
  match munis with
  | [] => mret municipality_codes
  | muni :: rest =>
      self ← get_self;
      match get_municipality_code self muni with
      | Some c =>
          if truthy_str c
          then resolve_municipalities rest (municipality_codes ++ [c])
          else print (not_found_warning muni);;
               resolve_municipalities rest municipality_codes
      | None =>
          print (not_found_warning muni);;
          resolve_municipalities rest municipality_codes
      end
  end.

Section set_query.
(** [pd.to_datetime] on one string is pandas' general date parser; the
    client relies on it for the two boundaries, and the embedding takes
    it as given. *)
Variable to_datetime : pystr → outcome Timestamp.

(** The "Process dates" part of [set_query], up to [date_values]. *)
Definition date_values (a : set_query_args) : outcome (list pystr) :=
  let date_values := [] in
  let date_values :=
    if truthy_str_or_list (months a)
    then date_values ++ listify (months a) else date_values in
  let date_values :=
    match year a with
    | Some y =>
        if truthy_int_or_str (year a)
        then date_values ++ year_tokens (str_of_year y) else date_values
    | None => date_values
    end in
  match start_date a, end_date a with
  | Some s, Some e =>
      if truthy_str s && truthy_str e
      then start ← to_datetime s;
           end_ ← to_datetime e;
           let dates := date_range_M start end_ in
           mret (date_values ++ (strftime_YMm <$> dates))
      else mret date_values
  | _, _ => mret date_values
  end.

(** [set_query(municipalities, months, year, start_date, end_date)]. *)
Definition set_query (a : set_query_args) : M unit :=
  clear_query;;
  (if truthy_str_or_list (municipalities a)
   then municipality_codes ←
          resolve_municipalities (listify (municipalities a)) [];
        if bool_decide (municipality_codes ≠ [])
        then append_selection (komuna_selection municipality_codes)
        else mret ()
   else mret ());;
  date_values ← lift (date_values a);
  if bool_decide (date_values ≠ [])
  then append_selection (viti_muaji_selection (sorted_set date_values))
  else mret ().

(** The calls a caller can make on a client. *)
Inductive call :=
  | GoDown (args : list pystr)
  | GoUp (levels : Z)
  | ClearQuery
  | SetQuery (a : set_query_args).

Definition run_call (c : call) : M unit :=
  match c with
  | GoDown args => go_down args
  | GoUp levels => go_up levels
  | ClearQuery => clear_query
  | SetQuery a => set_query a
  end.

(** The client after a sequence of calls; a call that raises leaves the
    client as it was when the exception left the method. *)
Definition run_calls (cs : list call) (self : ASK) : ASK :=
  foldl (λ s c, self_after (run_call c) s) self cs.
End set_query.

(** A call that puts no empty segment on the path: every call but a
    [go_down] with an empty segment among its arguments. *)
Definition call_ok (c : call) : Prop :=
  match c with
  | GoDown args => path_ok args
  | _ => True
  end.

(** ** Decimal digits *)

Definition digit_value (c : N) : option Z :=
  if ((48 <=? c) && (c <=? 57))%N then Some (Z.of_N c - 48) else None.

Fixpoint digits_value (acc : Z) (s : pystr) : option Z :=
  match s with
  | [] => Some acc
  | c :: rest => d ← digit_value c; digits_value (acc * 10 + d) rest
  end.

(** A non-empty run of ASCII digits, read in base ten. *)
Definition decimal (s : pystr) : option Z :=
  match s with [] => None | _ => digits_value 0 s end.

(** The ISO 8601 date forms of [pd.to_datetime], ["YYYY-MM"] (the form the
    docstring of [set_query] gives) and ["YYYY-MM-DD"]; a missing day is
    the first of the month.  Other strings are answered with [ValueError]:
    pandas reads many more forms, and bounds the dates to those a
    [Timestamp] can hold, so [set_query] takes [pd.to_datetime] as a
    parameter, and [to_datetime_iso] instantiates it in the closed examples
    only, on dates of these two forms within the bounds. *)
Definition to_datetime_iso (s : pystr) : outcome Timestamp :=
  let dash := 45%N in
  let check y m d :=
    if bool_decide (1 ≤ m ≤ 12 ∧ 1 ≤ d ≤ days_in_month y m)
    then Return {| ts_year := y; ts_month := m; ts_day := d |}
    else Raise ValueError in
  match s with
  | [y1; y2; y3; y4; c1; m1; m2] =>
      match decimal [y1; y2; y3; y4], decimal [m1; m2] with
      | Some y, Some m =>
          if bool_decide (c1 = dash) then check y m 1 else Raise ValueError
      | _, _ => Raise ValueError
      end
  | [y1; y2; y3; y4; c1; m1; m2; c2; d1; d2] =>
      match decimal [y1; y2; y3; y4], decimal [m1; m2], decimal [d1; d2] with
      | Some y, Some m, Some d =>
          if bool_decide (c1 = dash ∧ c2 = dash) then check y m d
          else Raise ValueError
      | _, _, _ => Raise ValueError
      end
  | _ => Raise ValueError
  end.

Arguments py : simpl never.

(** ** What [set_query] builds *)

(** The code a name contributes to the selection: the registry entry of its
    folded form, unless that entry is an empty string ([if code:]). *)
Definition resolved_code (rev : gmap pystr pystr) (muni : pystr)
  : option pystr :=
  match rev !! lower muni with
  | Some c => if truthy_str c then Some c else None
  | None => None
  end.

Definition resolved_codes (rev : gmap pystr pystr) (a : set_query_args)
  : list pystr :=
  if truthy_str_or_list (municipalities a)
  then omap (resolved_code rev) (listify (municipalities a)) else [].

Definition warnings (rev : gmap pystr pystr) (a : set_query_args)
  : list pystr :=
  if truthy_str_or_list (municipalities a)
  then not_found_warning <$>
         base.filter (λ muni, resolved_code rev muni = None)
                     (listify (municipalities a))
  else [].

Definition komuna_part (rev : gmap pystr pystr) (a : set_query_args)
  : list Selection :=
  if bool_decide (resolved_codes rev a ≠ [])
  then [komuna_selection (resolved_codes rev a)] else [].

Definition viti_muaji_part (dv : outcome (list pystr)) : list Selection :=
  match dv with
  | Return date_values =>
      if bool_decide (date_values ≠ [])
      then [viti_muaji_selection (sorted_set date_values)] else []
  | Raise _ => []
  end.

(** ** Python values of a decoded JSON response *)

#[local] Set Warnings "-register-all".

(** What [response.json()] can return; [get_data] returns [None] (here
    [PNone]) when the request fails.  A dict is the list of its items in
    insertion order, and a lookup takes the first binding of a key.  JSON
    numbers with a fraction are left out. *)
Inductive pyval :=
  | PNone
  | PBool (b : bool)
  | PInt (z : Z)
  | PStr (s : pystr)
  | PList (l : list pyval)
  | PDict (d : list (pystr * pyval)).

(** Truth value in [if not data:]. *)
Definition truthy (v : pyval) : bool :=
  match v with
  | PNone => false
  | PBool b => b
  | PInt z => bool_decide (z ≠ 0)
  | PStr s => bool_decide (s ≠ [])
  | PList l => match l with [] => false | _ => true end
  | PDict d => match d with [] => false | _ => true end
  end.

Fixpoint dict_lookup (d : list (pystr * pyval)) (k : pystr) : option pyval :=
  match d with
  | [] => None
  | (k', v) :: rest => if bool_decide (k' = k) then Some v else dict_lookup rest k
  end.

(** [v[k]] for a [str] key [k]. *)
Definition subscript_str (v : pyval) (k : pystr) : outcome pyval :=
  match v with
  | PDict d =>
      match dict_lookup d k with Some x => Return x | None => Raise KeyError end
  | _ => Raise TypeError
  end.

(** [v[i]] for an index [i >= 0]; a dict of a JSON response has no [int]
    key. *)
Definition subscript_int (v : pyval) (i : nat) : outcome pyval :=
  match v with
  | PList l =>
      match l !! i with Some x => Return x | None => Raise IndexError end
  | PStr s =>
      match s !! i with Some c => Return (PStr [c]) | None => Raise IndexError end
  | PDict _ => Raise KeyError
  | _ => Raise TypeError
  end.

(** [for item in v]: the elements of a list, the characters of a string,
    the keys of a dict. *)
Definition iterate (v : pyval) : outcome (list pyval) :=
  match v with
  | PList l => Return l
  | PStr s => Return ((λ c, PStr [c]) <$> s)
  | PDict d => Return ((λ kv, PStr kv.1) <$> d)
  | _ => Raise TypeError
  end.

(** Whitespace that [int] strips. *)
Definition is_space (c : N) : bool :=
  ((9 <=? c) && (c <=? 13) || (c =? 32)
   || (c =? 133) || (c =? 160) || (c =? 5760)
   || (8192 <=? c) && (c <=? 8202) || (c =? 8232) || (c =? 8233)
   || (c =? 8239) || (c =? 8287) || (c =? 12288))%N.

Fixpoint lstrip (s : pystr) : pystr :=
  match s with
  | [] => []
  | c :: rest => if is_space c then lstrip rest else s
  end.

Definition strip (s : pystr) : pystr := reverse (lstrip (reverse (lstrip s))).

(** Digits with single underscores between them. *)
Fixpoint int_digits (acc : Z) (after_digit : bool) (s : pystr) : option Z :=
  match s with
  | [] => if after_digit then Some acc else None
  | c :: rest =>
      if (c =? 95)%N
      then (if after_digit then int_digits acc false rest else None)
      else d ← digit_value c; int_digits (acc * 10 + d) true rest
  end.

(** [int(s)] on the decimal strings of the examples: surrounding
    whitespace, an optional sign, ASCII digits with single underscores
    between them; every other string is answered with [ValueError].  This
    is the builtin on short ASCII strings.  Which strings the builtin
    accepts beyond them depends on the interpreter (the decimal digits of
    the other scripts of its Unicode database, the limit on the number of
    digits), so the tabulation takes [int] on a [str] as a parameter, and
    [int_ascii] instantiates it in the closed examples only. *)
Definition int_ascii (s : pystr) : outcome Z :=
  let digits s :=
    match int_digits 0 false s with
    | Some z => Return z
    | None => Raise ValueError
    end in
  match strip s with
  | 43%N :: rest => digits rest
  | 45%N :: rest => Z.opp <$> digits rest
  | rest => digits rest
  end.

(** [int(v)], given [int] on a [str]. *)
Definition int_of (int_str : pystr → outcome Z) (v : pyval) : outcome Z :=
  match v with
  | PInt z => Return z
  | PBool b => Return (if b then 1 else 0)
  | PStr s => int_str s
  | _ => Raise TypeError
  end.

(** [v == ':']. *)
Definition is_colon (v : pyval) : bool :=
  match v with PStr s => bool_decide (s = py ":") | _ => false end.

(** [self.municipality_map.get(code, f'Unknown ({code})')]: a list or a
    dict is not hashable. *)
Definition municipality_name (self : ASK) (municipality_code : pyval)
  : outcome pystr :=
  let unknown s := py "Unknown (" ++ s ++ py ")" in
  match municipality_code with
  | PStr s => Return (default (unknown s) (municipality_map self !! s))
  | PInt z => Return (unknown (str_of_Z z))
  | PBool b => Return (unknown (if b then py "True" else py "False"))
  | PNone => Return (unknown (py "None"))
  | PList _ | PDict _ => Raise TypeError
  end.

(** ** Tabulating a response *)

(** One dict appended to [rows]. *)
Record Row := mkRow
  { row_Date : pyval;
    row_Municipality_Code : pyval;
    row_Municipality : pystr;
    row_Marriages : option Z }.

(** One row of the returned frame: [Date] is a first-of-month timestamp. *)
Record DataRecord := mkDataRecord
  { Date : Timestamp;
    Municipality_Code : pyval;
    Municipality : pystr;
    Marriages : option Z }.

(** A loop that builds a list by appending one result per element and that
    the first exception leaves. *)
Fixpoint traverse {A B} (f : A → outcome B) (l : list A) : outcome (list B) :=
  match l with
  | [] => Return []
  | a :: rest => b ← f a; bs ← traverse f rest; Return (b :: bs)
  end.

(** The body of [for item in data['data']], given [int] on a [str]. *)
Definition process_item (int_str : pystr → outcome Z) (self : ASK)
  (item : pyval) : outcome Row :=
  key ← subscript_str item (py "key");
  date ← subscript_int key 0;
  key ← subscript_str item (py "key");
  municipality_code ← subscript_int key 1;
  vals ← subscript_str item (py "values");
  marriages ← subscript_int vals 0;
  marriages ← (if is_colon marriages then Return None
               else Some <$> int_of int_str marriages);
  municipality ← municipality_name self municipality_code;
  Return {| row_Date := date; row_Municipality_Code := municipality_code;
            row_Municipality := municipality; row_Marriages := marriages |}.

(** [s.replace('M', '-')]. *)
Definition replace_M (s : pystr) : pystr :=
  (λ c, if (c =? 77)%N then 45%N else c) <$> s.

(** [pd.to_datetime(s, format='%Y-%m')] on one string: four digits, a dash,
    a month written [1]..[9] or [01]..[12]; the first of that month must be
    a date [pandas.Timestamp] can hold (1677-10 to 2262-04).  [None] stands
    for [ValueError].  The model follows pandas on the strings made of
    ASCII digits and a dash; pandas also reads the empty string and its
    spellings of a missing date (["NaT"], ["nan"], ...) as [NaT], and
    ["now"] and ["today"] as the current time, without raising, which the
    model does not represent.  The statements on frames therefore assume
    periods of the shape [YYYYMmm] ([period_token], [period_shape]). *)
Definition to_datetime_Ym (s : pystr) : option Timestamp :=
  let dash := 45%N in
  let month digits :=
    m ← decimal digits; if bool_decide (1 ≤ m ≤ 12) then Some m else None in
  let date y m :=
    if bool_decide (1677 * 12 + 9 ≤ y * 12 + (m - 1) ≤ 2262 * 12 + 3)
    then Some {| ts_year := y; ts_month := m; ts_day := 1 |} else None in
  match s with
  | [y1; y2; y3; y4; c; m1] =>
      if bool_decide (c = dash)
      then y ← decimal [y1; y2; y3; y4]; m ← month [m1]; date y m
      else None
  | [y1; y2; y3; y4; c; m1; m2] =>
      if bool_decide (c = dash)
      then y ← decimal [y1; y2; y3; y4]; m ← month [m1; m2]; date y m
      else None
  | _ => None
  end.

Definition is_str (v : pyval) : bool :=
  match v with PStr _ => true | _ => false end.

(** The [Date] column of one row after the conversion. *)
Definition record_of_row (r : Row) : outcome DataRecord :=
  match row_Date r with
  | PStr s =>
      match to_datetime_Ym (replace_M s) with
      | Some t =>
          Return {| Date := t; Municipality_Code := row_Municipality_Code r;
                    Municipality := row_Municipality r;
                    Marriages := row_Marriages r |}
      | None => Raise ValueError
      end
  | _ => Raise AttributeError
  end.

(** The order of [sort_values(['Date', 'Municipality'])]. *)
Definition key_leb (a b : DataRecord) : bool :=
  if negb (ts_leb (Date b) (Date a)) then true
  else if negb (ts_leb (Date a) (Date b)) then false
  else str_leb (Municipality a) (Municipality b).

Definition key_le (a b : DataRecord) : Prop := key_leb a b.

#[export] Instance key_le_dec : RelDecision key_le.
Proof. intros a b. unfold key_le. apply _. Defined.

(** A stable sort, as the multi-column [sort_values] is: rows with equal
    keys keep their order. *)
Fixpoint insert_by {A} (leb : A → A → bool) (x : A) (l : list A) : list A :=
  match l with
  | [] => [x]
  | y :: rest => if leb x y then x :: l else y :: insert_by leb x rest
  end.

Definition sort_by {A} (leb : A → A → bool) (l : list A) : list A :=
  foldr (insert_by leb) [] l.

Definition sort_values (df : list DataRecord) : list DataRecord :=
  sort_by key_leb df.

(** [pd.DataFrame(rows)] up to the sorted frame, as the sequence of its
    records (the index labels are not part of the model).  A frame built
    from no row has no column, and [df['Date']] raises [KeyError].  The
    model follows pandas on the rows of [well_formed_row]: a [Date] column
    of strings, codes that are strings, metrics that a float64 column
    holds exactly.  Outside them it is an approximation: for a [Date]
    column of [int]s or of [bool]s the [.str] accessor raises
    [AttributeError], which the model reports for every column with an
    entry that is not a string, while pandas returns a frame with [NaT]
    when the column mixes strings with other values; and a metric beyond
    2^53 next to a missing one is rounded by pandas.  The statements on
    returned frames assume [well_formed_row]. *)
Definition frame_of_rows (rows : list Row) : outcome (list DataRecord) :=
  match rows with
  | [] => Raise KeyError
  | _ =>
      if forallb (λ r, is_str (row_Date r)) rows
      then df ← traverse record_of_row rows; Return (sort_values df)
      else Raise AttributeError
  end.

(** [data['data']] as the list the loop runs over. *)
Definition response_items (data : pyval) : outcome (list pyval) :=
  d ← subscript_str data (py "data"); iterate d.

(** [get_data_as_df], from the value [data] that [get_data] returned and
    given [int] on a [str]. *)
Definition get_data_as_df (int_str : pystr → outcome Z) (self : ASK)
  (data : pyval) : outcome (option (list DataRecord)) :=
  if negb (truthy data) then Return None
  else
    items ← response_items data;
    rows ← traverse (process_item int_str self) items;
    df ← frame_of_rows rows;
    Return (Some df).

(** ** Vocabulary of the statements *)

(** An item and a response of the shape the API documents:
    [{"key": [period, code], "values": [value]}] under ["data"]. *)
Definition item (date code value : string) : pyval :=
  PDict [(py "key", PList [PStr (py date); PStr (py code)]);
         (py "values", PList [PStr (py value)])].

Definition response (items : list pyval) : pyval :=
  PDict [(py "data", PList items)].

(** The order of [ts_leb], as a proposition. *)
Definition ts_le (t u : Timestamp) : Prop :=
  ts_year t < ts_year u
  ∨ ts_year t = ts_year u
    ∧ (ts_month t < ts_month u
       ∨ ts_month t = ts_month u ∧ ts_day t ≤ ts_day u).

(** The sort key of a record. *)
Definition sort_key (r : DataRecord) : Timestamp * pystr :=
  (Date r, Municipality r).

(** The parts of an item that the loop body reads. *)
Definition item_parts (item date municipality_code marriages : pyval) : Prop :=
  ∃ key vals,
    subscript_str item (py "key") = Return key
    ∧ subscript_int key 0 = Return date
    ∧ subscript_int key 1 = Return municipality_code
    ∧ subscript_str item (py "values") = Return vals
    ∧ subscript_int vals 0 = Return marriages.

(** A response of three rows, and the frame it is tabulated to. *)
Definition three_rows : list pyval :=
  [item "2023M02" "1" "5"; item "2023M01" "19" ":"; item "2023M01" "18" "42"].

Definition three_rows_frame : list DataRecord :=
  [ {| Date := mkTimestamp 2023 1 1; Municipality_Code := PStr (py "18");
       Municipality := py "Prishtinë"; Marriages := Some 42 |};
    {| Date := mkTimestamp 2023 1 1; Municipality_Code := PStr (py "19");
       Municipality := py "Prizren"; Marriages := None |};
    {| Date := mkTimestamp 2023 2 1; Municipality_Code := PStr (py "1");
       Municipality := py "Gjakovë"; Marriages := Some 5 |} ].

(** The rows that the loop makes of [three_rows]. *)
Definition three_rows_rows : list Row :=
  [ mkRow (PStr (py "2023M02")) (PStr (py "1")) (py "Gjakovë") (Some 5);
    mkRow (PStr (py "2023M01")) (PStr (py "19")) (py "Prizren") None;
    mkRow (PStr (py "2023M01")) (PStr (py "18")) (py "Prishtinë") (Some 42) ].

(** The [Marriages] column of a returned frame. *)
Definition marriages_of (r : outcome (option (list DataRecord)))
  : outcome (option (list (option Z))) :=
  match r with
  | Return (Some df) => Return (Some (Marriages <$> df))
  | Return None => Return None
  | Raise e => Raise e
  end.

(** ** Read-only methods of the client *)

(** [get_query]: the query object itself. *)
Definition get_query (self : ASK) : Query := query self.

(** [get_current_location]: ['Current location: ' + '/'.join(current_path)]. *)
Definition get_current_location (self : ASK) : pystr :=
  py "Current location: " ++ join (py "/") (current_path self).

(** [get_available_municipalities]: [{v: k for k, v in
    self.municipality_map.items()}], names as they are written.  Where two
    codes carry one name Python keeps the code met last; the names of the
    registry are distinct, and the [gmap] of the model records no order. *)
Definition get_available_municipalities (self : ASK) : gmap pystr pystr :=
  list_to_map ((λ kv, (kv.2, kv.1)) <$> map_to_list (municipality_map self)).

(** A segment that [get_url] keeps apart from its neighbours: not empty and
    without ['/']. *)
Definition plain_segment (seg : pystr) : Prop := seg ≠ [] ∧ 47%N ∉ seg.

(** ** Vocabulary of the statements on [set_query] *)

(** [if start_date and end_date:]. *)
Definition range_given (a : set_query_args) : bool :=
  match start_date a, end_date a with
  | Some s, Some e => truthy_str s && truthy_str e
  | _, _ => false
  end.

(** The tokens that [months] and [year] put into [date_values], before the
    date range is looked at. *)
Definition months_and_year_tokens (a : set_query_args) : list pystr :=
  (if truthy_str_or_list (months a) then listify (months a) else [])
  ++ match year a with
     | Some y =>
         if truthy_int_or_str (year a) then year_tokens (str_of_year y) else []
     | None => []
     end.

(** A calendar date. *)
Definition valid_date (t : Timestamp) : Prop :=
  1 ≤ ts_month t ≤ 12
  ∧ 1 ≤ ts_day t ≤ days_in_month (ts_year t) (ts_month t).

#[export] Instance valid_date_dec t : Decision (valid_date t).
Proof. unfold valid_date. apply _. Defined.

(** ** Vocabulary of the statements on [get_data_as_df] *)

(** One item of the response all the way to a record of the frame. *)
Definition record_of_item (int_str : pystr → outcome Z) (self : ASK)
  (item : pyval) : outcome DataRecord :=
  row ← process_item int_str self item; record_of_row row.

(** A first day of a month that [pandas.Timestamp] can hold. *)
Definition month_start (t : Timestamp) : Prop :=
  ts_day t = 1 ∧ 1 ≤ ts_month t ≤ 12
  ∧ 1677 * 12 + 9 ≤ month_index t ≤ 2262 * 12 + 3.

#[export] Instance month_start_dec t : Decision (month_start t).
Proof. unfold month_start. apply _. Defined.

(** A period of a response: the token [YYYYMmm] of the month that starts
    on [t], as [set_query] writes it. *)
Definition period_token (s : pystr) (t : Timestamp) : Prop :=
  month_start t ∧ s = strftime_YMm t.

(** A string of the shape [YYYYMmm], in ASCII digits, whatever the year
    [y] and the month [m] it names. *)
Definition period_shape (s : pystr) (y m : Z) : Prop :=
  ∃ y1 y2 y3 y4 m1 m2,
    s = [y1; y2; y3; y4; 77%N; m1; m2]
    ∧ decimal [y1; y2; y3; y4] = Some y ∧ decimal [m1; m2] = Some m.

(** A metric that a float64 column holds exactly. *)
Definition exact_metric (m : option Z) : Prop :=
  ∀ n, m = Some n → - 2 ^ 53 ≤ n ≤ 2 ^ 53.

(** A row of the shape the API documents: the period a token, the code a
    string, the metric absent or exact. *)
Definition well_formed_row (r : Row) : Prop :=
  (∃ s t, row_Date r = PStr s ∧ period_token s t)
  ∧ is_str (row_Municipality_Code r)
  ∧ exact_metric (row_Marriages r).

(** A row of that shape but for its month, which is no month: [00] or
    above [12]. *)
Definition bad_month_row (r : Row) : Prop :=
  (∃ s y m, row_Date r = PStr s ∧ period_shape s y m ∧ ¬ 1 ≤ m ≤ 12)
  ∧ is_str (row_Municipality_Code r)
  ∧ exact_metric (row_Marriages r).

(** The records of a frame that carry a given sort key, in their order. *)
Definition with_key (k : Timestamp * pystr) (df : list DataRecord)
  : list DataRecord :=
  base.filter (λ r, sort_key r = k) df.

(** The token of the month [m] of the year [y], read as
    [get_data_as_df] reads the periods of a response, is the first day of
    that month. *)
Definition reads_back (y m : Z) : bool :=
  bool_decide (to_datetime_Ym (replace_M (strftime_YMm (mkTimestamp y m 1)))
               = Some (mkTimestamp y m 1)).

(** ** The metadata of an endpoint *)

(** [p] is the start of [s]. *)
Fixpoint prefixb (p s : pystr) : bool :=
  match p, s with
  | [], _ => true
  | _ :: _, [] => false
  | c :: p', d :: s' => bool_decide (c = d) && prefixb p' s'
  end.

(** [p in s] on two [str]: [p] occurs in [s]. *)
Fixpoint substringb (p s : pystr) : bool :=
  prefixb p s || match s with [] => false | _ :: s' => substringb p s' end.

(** [k in v] for a [str] [k]: a key of a dict, an element of a list, a
    substring of a [str]; [None], a [bool] and an [int] are not iterable. *)
Definition contains (v : pyval) (k : pystr) : outcome bool :=
  match v with
  | PDict d =>
      Return (match dict_lookup d k with Some _ => true | None => false end)
  | PList l =>
      Return (existsb (λ x, match x with
                            | PStr s => bool_decide (s = k)
                            | _ => false
                            end) l)
  | PStr s => Return (substringb k s)
  | PNone | PBool _ | PInt _ => Raise TypeError
  end.

(** A list or a dict cannot be the key of a dict. *)
Definition hashable (v : pyval) : bool :=
  match v with PList _ | PDict _ => false | _ => true end.

(** [k == k'] on hashable values: [True == 1] and [False == 0]. *)
Definition key_eqb (k k' : pyval) : bool :=
  match k, k' with
  | PNone, PNone => true
  | PBool b, PBool b' => bool_decide (b = b')
  | PInt z, PInt z' => bool_decide (z = z')
  | PBool b, PInt z | PInt z, PBool b => bool_decide (z = if b then 1 else 0)
  | PStr s, PStr s' => bool_decide (s = s')
  | _, _ => false
  end.

(** The dict [{'code': ..., 'values': ..., 'valueTexts': ...}] kept for one
    variable. *)
Record VariableEntry := mkVariableEntry
  { entry_code : pyval; entry_values : pyval; entry_valueTexts : pyval }.

(** The dict [variables], in insertion order. *)
Definition variables_dict : Type := list (pyval * VariableEntry).

(** [d[k] = v]: an equal key keeps its place and takes the new value. *)
Fixpoint setitem (d : variables_dict) (k : pyval) (v : VariableEntry)
  : variables_dict :=
  match d with
  | [] => [(k, v)]
  | (k', v') :: rest =>
      if key_eqb k' k then (k', v) :: rest else (k', v') :: setitem rest k v
  end.

(** [d.get(k)]. *)
Fixpoint getitem (d : variables_dict) (k : pyval) : option VariableEntry :=
  match d with
  | [] => None
  | (k', v) :: rest => if key_eqb k' k then Some v else getitem rest k
  end.

(** The key and the value of [variables[var['text']] = {...}]: Python
    evaluates the right-hand side, then the key, then hashes the key. *)
Definition variable_item (var : pyval) : outcome (pyval * VariableEntry) :=
  code ← subscript_str var (py "code");
  values ← subscript_str var (py "values");
  valueTexts ← subscript_str var (py "valueTexts");
  text ← subscript_str var (py "text");
  if hashable text
  then Return (text, {| entry_code := code; entry_values := values;
                        entry_valueTexts := valueTexts |})
  else Raise TypeError.

(** [for var in ...: variables[var['text']] = {...}]. *)
Fixpoint collect_variables (variables : variables_dict) (vars : list pyval)
  : outcome variables_dict :=
  match vars with
  | [] => Return variables
  | var :: rest =>
      it ← variable_item var;
      collect_variables (setitem variables it.1 it.2) rest
  end.

Definition no_variables_error : pystr :=
  py "Error: No variables found at current endpoint".

(** [get_variables], given what [self.info()] returned. *)
Definition get_variables (response : pyval) : M (option variables_dict) :=
  missing ← (if truthy response
             then lift (negb <$> contains response (py "variables"))
             else mret true);
  if missing : bool
  then print no_variables_error;; mret None
  else
    vars ← lift (subscript_str response (py "variables") ≫= iterate);
    variables ← lift (collect_variables [] vars);
    mret (Some variables).

(** [get_available_months], given what [self.info()] returned; Python's
    [None] is [PNone]. *)
Definition get_available_months (response : pyval) : M pyval :=
  variables ← get_variables response;
  mret (match variables with
        | None | Some [] => PNone
        | Some d =>
            match getitem d (PStr (py "Viti-muaji")) with
            | Some entry => entry_valueTexts entry
            | None => PNone
            end
        end).

Section list_available_paths.
(** [repr] of a list or of a dict. *)
Variable repr : pyval → pystr.

(** [f"{v}"], the text Python prints for a value. *)
Definition format_value (v : pyval) : pystr :=
  match v with
  | PNone => py "None"
  | PBool b => if b then py "True" else py "False"
  | PInt z => str_of_Z z
  | PStr s => s
  | PList _ | PDict _ => repr v
  end.

(** [for var in ...: print(f"- {var['text']}")]. *)
Fixpoint print_variables (vars : list pyval) : M unit :=
  match vars with
  | [] => mret ()
  | var :: rest =>
      text ← lift (subscript_str var (py "text"));
      print (py "- " ++ format_value text);;
      print_variables rest
  end.

(** [list_available_paths], given what [self.info()] returned. *)
Definition list_available_paths (response : pyval) : M (option (list pyval)) :=
  if negb (truthy response) then mret None
  else
    is_dataset ← lift (contains response (py "variables"));
    if is_dataset : bool
    then
      print (py "This is a dataset endpoint. Available variables:");;
      vars ← lift (subscript_str response (py "variables") ≫= iterate);
      print_variables vars;;
      mret None
    else
      match response with
      | PList paths => mret (Some paths)
      | _ => print (py "No paths available at current location");; mret None
      end.
End list_available_paths.

(** The shape of the metadata of a dataset endpoint: a dict whose
    ["variables"] lists one dict per variable. *)
Definition metadata_variable (code text : string)
  (values valueTexts : list pystr) : pyval :=
  PDict [(py "code", PStr (py code)); (py "text", PStr (py text));
         (py "values", PList (PStr <$> values));
         (py "valueTexts", PList (PStr <$> valueTexts))].

Definition metadata (variables : list pyval) : pyval :=
  PDict [(py "title", PStr (py "Marriages")); (py "variables", PList variables)].

(** A response that names ["Viti-muaji"] twice. *)
Definition two_periods : pyval :=
  metadata [metadata_variable "Viti-muaji" "Viti-muaji" [py "0"]
              [py "2022M12"];
            metadata_variable "Komuna" "Komuna" [py "18"] [py "Prishtinë"];
            metadata_variable "Viti-muaji" "Viti-muaji" [py "0"; py "1"]
              [py "2023M01"; py "2023M02"]].

(** The listing of a folder: one dict per entry. *)
Definition folder_listing : pyval :=
  PList [PDict [(py "id", PStr (py "Population")); (py "type", PStr (py "l"));
                (py "text", PStr (py "Population"))]].

(** * Part II: properties *)

(** ** The registry *)

Section registry.
Implicit Types (items : list (pystr * pystr)) (m : gmap pystr pystr).

Lemma dict_of_items_snoc items k v :
  dict_of_items (items ++ [(k, v)]) = <[k := v]> (dict_of_items items).
Proof. unfold dict_of_items. by rewrite foldl_app. Qed.

Lemma reverse_of_items_snoc items k v :
  reverse_of_items (items ++ [(k, v)])
  = <[lower v := k]> (reverse_of_items items).
Proof. unfold reverse_of_items. by rewrite foldl_app. Qed.

(** Every binding of the forward dict comes from an item. *)
Lemma dict_of_items_lookup items k v :
  dict_of_items items !! k = Some v → (k, v) ∈ items.
Proof.
  induction items as [|[k' v'] items IH] using rev_ind; [done|].
  rewrite dict_of_items_snoc, lookup_insert, elem_of_app.
  case_decide; intros Hk; simplify_eq.
  - right. apply list_elem_of_here.
  - left. by apply IH.
Qed.

(** With pairwise distinct folded names, the reverse dict sends the folded
    name of every item to the code of that item. *)
Lemma reverse_of_items_lookup items k v :
  NoDup (lower <$> items.*2) →
  (k, v) ∈ items → reverse_of_items items !! lower v = Some k.
Proof.
  induction items as [|[k' v'] items IH] using rev_ind.
  { by intros _ ?%elem_of_nil. }
  rewrite !fmap_app, NoDup_app, reverse_of_items_snoc, lookup_insert.
  intros (Hnd & Hfresh & _) [Hin|Hin]%elem_of_app.
  - case_decide as Hv; [|by apply IH].
    exfalso. apply (Hfresh (lower v)); [|set_solver].
    apply list_elem_of_fmap. exists v. split; [done|].
    apply list_elem_of_fmap. by exists (k, v).
  - apply list_elem_of_singleton in Hin. simplify_eq.
    by rewrite decide_True.
Qed.

(** Every value of the reverse dict is the code of some item. *)
Lemma reverse_of_items_code items n k :
  reverse_of_items items !! n = Some k → k ∈ items.*1.
Proof.
  induction items as [|[k' v'] items IH] using rev_ind; [done|].
  rewrite reverse_of_items_snoc, lookup_insert, fmap_app, elem_of_app.
  case_decide; intros Hk; simplify_eq.
  - right. apply list_elem_of_here.
  - left. by apply IH.
Qed.
End registry.

Lemma municipality_names_NoDup : NoDup (lower <$> municipality_items.*2).
Proof. apply (bool_decide_unpack _). by vm_compute. Qed.

Lemma municipality_codes_nonempty : Forall (λ k, k ≠ []) municipality_items.*1.
Proof. apply (bool_decide_unpack _). by vm_compute. Qed.

Example Prishtine_code lang :
  get_municipality_code (init lang) (py "PRISHTINË") = Some (py "18").
Proof. by vm_compute. Qed.

(** C10: for every code of the registry, resolving the name registered for
    that code with [get_municipality_code] gives the code back. *)
Theorem municipality_code_of_name (lang code name : pystr) :
  municipality_map (init lang) !! code = Some name →
  get_municipality_code (init lang) name = Some code.
Proof.
  intros Hname%dict_of_items_lookup.
  apply reverse_of_items_lookup; [apply municipality_names_NoDup | done].
Qed.

Lemma municipality_code_of_name_witness :
  municipality_map (init (py "sq")) !! py "6" = Some (py "Kaçanik")
  ∧ get_municipality_code (init (py "sq")) (py "Kaçanik") = Some (py "6").
Proof.
  assert (municipality_map (init (py "sq")) !! py "6" = Some (py "Kaçanik"))
    as H by (by vm_compute).
  split; [exact H|]. exact (municipality_code_of_name _ _ _ H).
Defined.

(** ** Path navigation *)

Section navigation.
Implicit Types (self : ASK) (p : list pystr).

Lemma go_up_path levels self :
  current_path (self_after (go_up levels) self)
  = slice_to (current_path self) (- levels).
Proof. done. Qed.

Lemma go_down_path args self :
  current_path (self_after (go_down args) self) = current_path self ++ args.
Proof. done. Qed.

Lemma slice_to_positive_levels {A} (l : list A) levels :
  0 < levels →
  slice_to l (- levels) = take (length l - Z.to_nat levels) l.
Proof.
  intros Hpos. unfold slice_to.
  destruct (Z.ltb_spec (- levels) 0) as [_|]; [|lia].
  f_equal. lia.
Qed.

Lemma path_ok_take p n : path_ok p → path_ok (take n p).
Proof. apply Forall_take. Qed.

Lemma path_ok_slice_to p stop : path_ok p → path_ok (slice_to p stop).
Proof. intros Hp. unfold slice_to. case_match; by apply path_ok_take. Qed.
End navigation.

Example go_up_one :
  current_path (self_after (go_down [py "Population"; py "Marriages"] ≫=
                            λ _, go_up 1) (init (py "sq")))
  = [py "Population"].
Proof. by vm_compute. Qed.

Example go_up_negative :
  slice_to [py "a"; py "b"; py "c"] (- (-1)) = [py "a"].
Proof. by vm_compute. Qed.

(** C9: [go_up(0)] empties the path, whatever it was: [p[:-0]] is [p[:0]]. *)
Theorem go_up_zero_resets (self : ASK) :
  current_path (self_after (go_up 0) self) = [].
Proof. rewrite go_up_path. unfold slice_to. simpl. apply take_0. Qed.

(** What [go_up(levels)] does for a positive [levels]: it leaves the path
    at root when [levels] exceeds the depth, and removes exactly [levels]
    trailing segments when [1 <= levels <= depth]. *)
Theorem go_up_clamps_or_removes (self : ASK) (levels : Z) :
  let p := current_path self in
  let p' := current_path (self_after (go_up levels) self) in
  (Z.of_nat (length p) < levels → p' = [])
  ∧ (1 ≤ levels ≤ Z.of_nat (length p) →
     p' = take (length p - Z.to_nat levels) p ∧ suffix_removed levels p p').
Proof.
  intros p p'. subst p'. rewrite go_up_path. fold p. split.
  - intros Hover. rewrite slice_to_positive_levels by lia.
    replace (length p - Z.to_nat levels)%nat with 0%nat by lia. apply take_0.
  - intros [Hlo Hhi]. rewrite slice_to_positive_levels by lia.
    split; [done|]. exists (drop (length p - Z.to_nat levels) p). split.
    + by rewrite take_drop.
    + rewrite length_drop. lia.
Qed.

Lemma go_up_clamps_or_removes_witness :
  let self := self_after (go_down [py "a"; py "b"; py "c"]) (init (py "sq")) in
  current_path (self_after (go_up 5) self) = []
  ∧ current_path (self_after (go_up 2) self) = [py "a"]
  ∧ suffix_removed 2 (current_path self)
      (current_path (self_after (go_up 2) self)).
Proof.
  intros self.
  pose proof (go_up_clamps_or_removes self 5) as [H5 _].
  pose proof (go_up_clamps_or_removes self 2) as [_ H2].
  split; [apply H5; vm_compute; reflexivity|].
  destruct H2 as [Htake Hsuf]; [vm_compute; split; discriminate|].
  split; [exact Htake | exact Hsuf].
Defined.

(** C6, the failing input: [levels = 0] does not exceed the depth of the
    path [["a"]], and [go_up(0)] does not remove zero trailing segments
    from it: the slice [[:-0]] is [[:0]], and the segment is lost. *)
Theorem go_up_zero_not_identity :
  let self := self_after (go_down [py "a"]) (init (py "sq")) in
  current_path self = [py "a"]
  ∧ 0 ≤ Z.of_nat (length (current_path self))
  ∧ current_path (self_after (go_up 0) self) = []
  ∧ ¬ suffix_removed 0 (current_path self)
        (current_path (self_after (go_up 0) self)).
Proof.
  intros self. split; [done|]. split; [lia|]. split; [done|].
  intros (tail & Hp & Hlen).
  destruct tail; [discriminate Hp | simpl in Hlen; lia].
Qed.

(** One navigation step keeps the path free of empty segments: [go_up] for
    every [levels], [go_down] when no passed segment is empty. *)
Lemma path_ok_preserved (self : ASK) :
  path_ok (current_path self) →
  (∀ levels, path_ok (current_path (self_after (go_up levels) self)))
  ∧ (∀ args, path_ok args →
             path_ok (current_path (self_after (go_down args) self))).
Proof.
  intros Hp. split.
  - intros levels. rewrite go_up_path. by apply path_ok_slice_to.
  - intros args Hargs. rewrite go_down_path. by apply Forall_app.
Qed.

Lemma path_ok_init lang : path_ok (current_path (init lang)).
Proof. constructor. Qed.

(** C8 as stated fails: [go_down('')] puts an empty segment on the path. *)
Lemma go_down_empty_segment :
  path_ok (current_path (init (py "sq")))
  ∧ ¬ path_ok (current_path (self_after (go_down [py ""]) (init (py "sq")))).
Proof.
  split; [apply path_ok_init|].
  intros Hbad. apply Forall_cons in Hbad as [Hne _]. by apply Hne.
Qed.

(** ** Running the method monad *)

Section monad_run.
Context {A B : Type}.
Implicit Types (self : ASK) (f : A → M B).

Lemma run_get_self (k : ASK → M B) self : (get_self ≫= k) self = k self self.
Proof.
  unfold mbind, M_bind, get_self. by destruct (k self self) as [[??]?].
Qed.

Lemma run_put_self (k : unit → M B) self' self :
  (put_self self' ≫= k) self = k () self'.
Proof.
  unfold mbind, M_bind, put_self. by destruct (k () self') as [[??]?].
Qed.

Lemma run_print (k : unit → M B) line self :
  (print line ≫= k) self
  = let '(r, self', out) := k () self in (r, self', line :: out).
Proof. done. Qed.

Lemma run_ret_bind (k : A → M B) a self : (mret a ≫= k) self = k a self.
Proof.
  unfold mbind, M_bind, mret, M_ret. by destruct (k a self) as [[??]?].
Qed.

Lemma run_lift_Return (k : A → M B) a self :
  (lift (Return a) ≫= k) self = k a self.
Proof.
  unfold mbind, M_bind, lift. by destruct (k a self) as [[??]?].
Qed.

Lemma run_lift_Raise (k : A → M B) e self :
  (lift (Raise e) ≫= k) self = (Raise e, self, []).
Proof. done. Qed.

Lemma run_bind f (m : M A) self r self' out :
  m self = (Return r, self', out) →
  (m ≫= f) self
  = let '(r', self'', out') := f r self' in (r', self'', out ++ out').
Proof. intros Hm. unfold mbind, M_bind. by rewrite Hm. Qed.
End monad_run.

Lemma run_ret {A} (a : A) self : (mret a : M A) self = (Return a, self, []).
Proof. done. Qed.

Lemma run_clear_query {B} (k : unit → M B) self :
  (clear_query ≫= k) self = k () (set_query_field empty_query self).
Proof.
  unfold mbind, M_bind, clear_query, get_self, put_self.
  simpl. by destruct (k () _) as [[??]?].
Qed.

Lemma run_append_selection sel self :
  append_selection sel self
  = (Return (),
     set_query_field
       {| query_items := query_items (query self) ++ [sel];
          response_format := response_format (query self) |} self, []).
Proof. done. Qed.

Section set_query_run.
Variable to_datetime : pystr → outcome Timestamp.
Implicit Types (self : ASK) (a : set_query_args).

Lemma resolve_municipalities_run munis codes self :
  let rev := municipality_reverse_map self in
  resolve_municipalities munis codes self
  = (Return (codes ++ omap (resolved_code rev) munis), self,
     not_found_warning <$>
       base.filter (λ muni, resolved_code rev muni = None) munis).
Proof.
  intros rev. revert codes.
  induction munis as [|muni rest IH]; intros codes; simpl.
  { by rewrite app_nil_r. }
  rewrite run_get_self, filter_cons. unfold get_municipality_code. fold rev.
  pose proof (eq_refl (resolved_code rev muni)) as Hr.
  unfold resolved_code at 2 in Hr.
  destruct (rev !! lower muni) as [c|]; [destruct (truthy_str c)|].
  - rewrite IH, decide_False by (by rewrite Hr). rewrite Hr. simpl.
    by rewrite <-app_assoc.
  - rewrite run_print, IH, decide_True by done. by rewrite Hr.
  - rewrite run_print, IH, decide_True by done. by rewrite Hr.
Qed.

(** One run of [set_query], in closed form. *)
Lemma set_query_run a self :
  let rev := municipality_reverse_map self in
  let dv := date_values to_datetime a in
  set_query to_datetime a self
  = (dv ≫= λ _, Return (),
     set_query_field
       {| query_items := komuna_part rev a ++ viti_muaji_part dv;
          response_format := py "json" |} self,
     warnings rev a).
Proof.
  intros rev dv. unfold set_query. rewrite run_clear_query.
  unfold komuna_part, resolved_codes, warnings. fold dv.
  set (self0 := set_query_field empty_query self).
  destruct (truthy_str_or_list (municipalities a)) eqn:Hm.
  - set (codes := omap (resolved_code rev) (listify (municipalities a))).
    set (ws := not_found_warning <$> base.filter _ _).
    assert ((municipality_codes ←
               resolve_municipalities (listify (municipalities a)) [];
             if bool_decide (municipality_codes ≠ [])
             then append_selection (komuna_selection municipality_codes)
             else mret ()) self0
            = (Return (),
               set_query_field
                 {| query_items :=
                      if bool_decide (codes ≠ [])
                      then [komuna_selection codes] else [];
                    response_format := py "json" |} self, ws)) as Hgeo.
    { erewrite run_bind; [|apply resolve_municipalities_run].
      simpl. fold rev codes ws.
      case_bool_decide; [rewrite run_append_selection|rewrite run_ret];
        simpl; by rewrite app_nil_r. }
    erewrite run_bind; [|exact Hgeo]. destruct dv as [date_values|e].
    + rewrite run_lift_Return. unfold viti_muaji_part.
      repeat case_bool_decide; simpl; by rewrite ?app_nil_r.
    + rewrite run_lift_Raise. simpl. by rewrite ?app_nil_r.
  - rewrite run_ret_bind. destruct dv as [date_values|e].
    + rewrite run_lift_Return. unfold viti_muaji_part.
      case_bool_decide; done.
    + by rewrite run_lift_Raise.
Qed.
End set_query_run.

(** ** Properties of the query construction *)

Section set_query_properties.
Variable to_datetime : pystr → outcome Timestamp.
Implicit Types (self : ASK) (a : set_query_args) (c : call).

Lemma set_query_query a self :
  query (self_after (set_query to_datetime a) self)
  = {| query_items := komuna_part (municipality_reverse_map self) a
                      ++ viti_muaji_part (date_values to_datetime a);
       response_format := py "json" |}.
Proof. unfold self_after. by rewrite set_query_run. Qed.

Lemma set_query_printed a self :
  printed (set_query to_datetime a) self
  = warnings (municipality_reverse_map self) a.
Proof. unfold printed. by rewrite set_query_run. Qed.

Lemma set_query_result a self :
  result_of (set_query to_datetime a) self
  = date_values to_datetime a ≫= λ _, Return ().
Proof. unfold result_of. by rewrite set_query_run. Qed.

(** No method writes the registry. *)
Lemma run_call_registry c self :
  municipality_reverse_map (self_after (run_call to_datetime c) self)
  = municipality_reverse_map self.
Proof.
  destruct c as [args|levels| |a]; try done.
  unfold self_after. simpl. by rewrite set_query_run.
Qed.

Lemma run_calls_registry cs self :
  municipality_reverse_map (run_calls to_datetime cs self)
  = municipality_reverse_map self.
Proof.
  revert self. induction cs as [|c cs IH]; intros self; [done|].
  change (run_calls to_datetime (c :: cs) self)
    with (run_calls to_datetime cs (self_after (run_call to_datetime c) self)).
  by rewrite IH, run_call_registry.
Qed.

(** Every code of the constructed registry is a non-empty string, so
    [if code:] only tests whether the name was found. *)
Lemma resolved_code_init lang cs muni :
  let self := run_calls to_datetime cs (init lang) in
  resolved_code (municipality_reverse_map self) muni
  = get_municipality_code self muni.
Proof.
  intros self. unfold resolved_code, get_municipality_code.
  destruct (municipality_reverse_map self !! lower muni) as [c|] eqn:Hc;
    [|done].
  unfold self in Hc. rewrite run_calls_registry in Hc.
  apply reverse_of_items_code in Hc.
  pose proof municipality_codes_nonempty as Hne.
  rewrite Forall_forall in Hne. apply Hne in Hc.
  unfold truthy_str. by rewrite bool_decide_true.
Qed.

Lemma run_call_path_ok c self :
  call_ok c → path_ok (current_path self) →
  path_ok (current_path (self_after (run_call to_datetime c) self)).
Proof.
  intros Hc Hp. destruct (path_ok_preserved self Hp) as [Hup Hdown].
  destruct c as [args|levels| |a]; simpl.
  - by apply Hdown.
  - apply Hup.
  - done.
  - unfold self_after. by rewrite set_query_run.
Qed.

(** C8, as amended: the path of a fresh client is the root, which has no
    empty segment, and the path has none after any sequence of calls in
    which no [go_down] is passed an empty segment: [go_up] keeps the
    invariant for every [levels], [go_down] for non-empty segments. *)
Theorem path_ok_invariant (lang : pystr) (cs : list call) :
  Forall call_ok cs →
  path_ok (current_path (run_calls to_datetime cs (init lang))).
Proof.
  intros Hcs. generalize (path_ok_init lang).
  generalize (init lang) as self.
  induction Hcs as [|c cs Hc _ IH]; intros self Hp; [done|].
  change (run_calls to_datetime (c :: cs) self)
    with (run_calls to_datetime cs (self_after (run_call to_datetime c) self)).
  by apply IH, run_call_path_ok.
Qed.

(** C4: the query left by [set_query] is a function of the arguments of
    that call alone: after any sequence of earlier calls (earlier
    [set_query] calls among them) it is the query the same call builds on
    a freshly constructed client, and so are the outcome and the
    warnings. *)
Theorem set_query_replaces_query (lang lang' : pystr) (cs : list call) a :
  let self := run_calls to_datetime cs (init lang) in
  let fresh := init lang' in
  query (self_after (set_query to_datetime a) self)
  = query (self_after (set_query to_datetime a) fresh)
  ∧ result_of (set_query to_datetime a) self
    = result_of (set_query to_datetime a) fresh
  ∧ printed (set_query to_datetime a) self
    = printed (set_query to_datetime a) fresh.
Proof.
  intros self fresh.
  rewrite !set_query_query, !set_query_result, !set_query_printed.
  unfold self. by rewrite run_calls_registry.
Qed.

(** C5: with [names] passed as [municipalities], every name the registry
    does not know is printed as a warning, in order, and left out; the
    selection holds the codes of the other names, and is absent when no
    name resolves.  No exception comes from the names: with no date
    filter the call returns, and with no resolved name the query then
    has no selection at all. *)
Theorem set_query_unknown_municipalities
    (lang : pystr) (cs : list call) a (names : list pystr) :
  let self := run_calls to_datetime cs (init lang) in
  let codes := omap (get_municipality_code self) names in
  let unknown :=
    base.filter (λ muni, get_municipality_code self muni = None) names in
  municipalities a = Some (Strs names) →
  printed (set_query to_datetime a) self = not_found_warning <$> unknown
  ∧ query_items (query (self_after (set_query to_datetime a) self))
    = (if bool_decide (codes ≠ []) then [komuna_selection codes] else [])
      ++ viti_muaji_part (date_values to_datetime a)
  ∧ (date_values to_datetime a = Return [] →
     result_of (set_query to_datetime a) self = Return ()
     ∧ (unknown = names →
        query_items (query (self_after (set_query to_datetime a) self))
        = [])).
Proof.
  intros self codes unknown Ha.
  rewrite set_query_query, set_query_result, set_query_printed.
  unfold warnings, komuna_part, resolved_codes. rewrite Ha. simpl.
  assert (omap (resolved_code (municipality_reverse_map self)) names = codes)
    as Hcodes.
  { unfold codes. apply list_omap_ext, Forall2_same_length_lookup_2; [done|].
    intros i m1 m2 ? ?. simplify_eq. apply resolved_code_init. }
  assert (base.filter
            (λ muni, resolved_code (municipality_reverse_map self) muni = None)
            names = unknown) as Hunknown.
  { unfold unknown. apply list_filter_iff.
    intros muni. unfold self. by rewrite resolved_code_init. }
  assert (unknown = names → codes = []) as Hnone.
  { unfold unknown, codes. clear. induction names as [|n ns IH]; [done|].
    rewrite filter_cons. simpl. case_decide as Hn.
    - rewrite Hn. intros [=Hns]. by apply IH.
    - intros Heq. exfalso.
      assert (length (base.filter
                (λ muni, get_municipality_code self muni = None) ns)
              ≤ length ns)%nat as Hlen by apply length_filter.
      rewrite Heq in Hlen. simpl in Hlen. lia. }
  assert ((if bool_decide (names ≠ [])
           then omap (resolved_code (municipality_reverse_map self)) names
           else []) = codes) as ->.
  { rewrite Hcodes. case_bool_decide as Hn; [done|].
    unfold codes. by rewrite Hn. }
  assert ((if bool_decide (names ≠ [])
           then not_found_warning <$>
                  base.filter
                    (λ muni, resolved_code (municipality_reverse_map self)
                               muni = None) names
           else []) = not_found_warning <$> unknown) as ->.
  { rewrite Hunknown. case_bool_decide as Hn; [done|].
    unfold unknown. by rewrite Hn. }
  split; [done|]. split; [done|].
  intros ->. split; [done|]. intros ->%Hnone. done.
Qed.
End set_query_properties.

Lemma path_ok_invariant_witness :
  let cs := [GoDown [py "Population"; py "Marriages"]; GoUp 5;
             GoDown [py "Population"]; GoUp 0; GoUp (-1);
             GoDown [py "Education"; py "tab05.px"]; GoUp 1] in
  Forall call_ok cs
  ∧ current_path (run_calls to_datetime_iso cs (init (py "sq")))
    = [py "Education"]
  ∧ path_ok (current_path (run_calls to_datetime_iso cs (init (py "sq")))).
Proof.
  intros cs.
  assert (Forall call_ok cs) as Hcs.
  { repeat constructor; discriminate. }
  split; [exact Hcs|]. split; [vm_compute; reflexivity|].
  exact (path_ok_invariant to_datetime_iso (py "sq") cs Hcs).
Defined.

Lemma set_query_unknown_municipalities_witness :
  let a := {| municipalities := Some (Strs [py "unknownplace"]);
              months := None; year := None;
              start_date := None; end_date := None |} in
  let self := init (py "sq") in
  printed (set_query to_datetime_iso a) self
  = [py "Warning: Municipality 'unknownplace' not found"]
  ∧ result_of (set_query to_datetime_iso a) self = Return ()
  ∧ query_items (query (self_after (set_query to_datetime_iso a) self)) = [].
Proof.
  intros a self.
  pose proof (set_query_unknown_municipalities to_datetime_iso (py "sq") [] a
                [py "unknownplace"] eq_refl) as (Hprinted & _ & Hrest).
  destruct (Hrest eq_refl) as [Hresult Hempty].
  assert (base.filter (λ muni, get_municipality_code self muni = None)
            [py "unknownplace"] = [py "unknownplace"]) as Hunknown
    by (vm_compute; reflexivity).
  split; [|split; [exact Hresult | exact (Hempty Hunknown)]].
  etrans; [exact Hprinted|]. vm_compute. reflexivity.
Defined.

Example set_query_twice :
  let first := {| municipalities := Some (Str (py "Gjakovë")); months := None;
                  year := Some (Int 2023);
                  start_date := None; end_date := None |} in
  let second := {| municipalities := None;
                   months := Some (Strs [py "2024M02"; py "2024M01"]);
                   year := None; start_date := None; end_date := None |} in
  query (run_calls to_datetime_iso [SetQuery first; SetQuery second]
           (init (py "sq")))
  = {| query_items := [viti_muaji_selection [py "2024M01"; py "2024M02"]];
       response_format := py "json" |}.
Proof. by vm_compute. Qed.

Example set_query_two_known_one_unknown :
  let a := {| municipalities :=
                Some (Strs [py "Prishtinë"; py "nowhere"; py "PRIZREN"]);
              months := None; year := Some (Int 2023);
              start_date := None; end_date := None |} in
  query_items (query (self_after (set_query to_datetime_iso a) (init (py "sq"))))
  = [komuna_selection [py "18"; py "19"];
     viti_muaji_selection
       [py "2023M01"; py "2023M02"; py "2023M03"; py "2023M04";
        py "2023M05"; py "2023M06"; py "2023M07"; py "2023M08";
        py "2023M09"; py "2023M10"; py "2023M11"; py "2023M12"]].
Proof. by vm_compute. Qed.

(** ** The date range of [set_query] *)

Section date_range.
Implicit Types (start t : Timestamp) (i : Z).

Lemma month_index_month_end i : month_index (month_end i) = i.
Proof.
  unfold month_index, month_end. simpl.
  pose proof (Z.div_mod i 12). lia.
Qed.

Lemma month_end_month_index t :
  1 ≤ ts_month t ≤ 12 →
  month_end (month_index t)
  = {| ts_year := ts_year t; ts_month := ts_month t;
       ts_day := days_in_month (ts_year t) (ts_month t) |}.
Proof.
  intros Hm. unfold month_index, month_end.
  assert ((ts_year t * 12 + (ts_month t - 1)) `div` 12 = ts_year t) as ->.
  { symmetry. apply (Z.div_unique_pos _ _ _ (ts_month t - 1)); lia. }
  assert ((ts_year t * 12 + (ts_month t - 1)) `mod` 12 = ts_month t - 1) as ->.
  { symmetry. apply (Z.mod_unique_pos _ _ (ts_year t)); lia. }
  f_equal; f_equal; lia.
Qed.

(** Every date of the range is the last day of a month from the month of
    [start] to the month of [end_], and lies between the two. *)
Lemma date_range_M_elem start (end_ : Timestamp) t :
  t ∈ date_range_M start end_ ↔
  ∃ i, month_index start ≤ i ≤ month_index end_ ∧ t = month_end i
       ∧ ts_leb start t ∧ ts_leb t end_.
Proof.
  unfold date_range_M.
  rewrite list_elem_of_In, filter_In, <-list_elem_of_In, list_elem_of_fmap.
  split.
  - intros [(i & -> & Hi%elem_of_seqZ) [H1 H2]%andb_true_iff].
    exists i. rewrite H1, H2. split; [lia|done].
  - intros (i & Hi & -> & H1%Is_true_true & H2%Is_true_true). split.
    + exists i. split; [done|]. apply elem_of_seqZ. lia.
    + by rewrite H1, H2.
Qed.

(** An [end_] that is not the last day of its month keeps its own month
    out of the range: every date of the range lies in an earlier month. *)
Lemma date_range_M_before_end start (end_ : Timestamp) t :
  1 ≤ ts_month end_ ≤ 12 →
  ts_day end_ < days_in_month (ts_year end_) (ts_month end_) →
  t ∈ date_range_M start end_ → month_index t < month_index end_.
Proof.
  intros Hm Hday (i & Hi & -> & _ & Hle)%date_range_M_elem.
  rewrite month_index_month_end.
  destruct (decide (i = month_index end_)) as [->|]; [|lia].
  rewrite month_end_month_index in Hle by done.
  unfold ts_leb in Hle. simpl in Hle.
  rewrite !Z.ltb_irrefl in Hle. apply Is_true_true, Z.leb_le in Hle. lia.
Qed.
End date_range.

(** C1, the failing input: with [start_date="2023-01"] and
    [end_date="2023-03"] the period selection holds 2023M01 and 2023M02
    only.  Both boundaries parse to the first day of their month, and the
    month-END range between them stops at 2023-02-28. *)
Theorem set_query_range_omits_end_month :
  let a := {| municipalities := None; months := None; year := None;
              start_date := Some (py "2023-01");
              end_date := Some (py "2023-03") |} in
  to_datetime_iso (py "2023-01") = Return (mkTimestamp 2023 1 1)
  ∧ to_datetime_iso (py "2023-03") = Return (mkTimestamp 2023 3 1)
  ∧ date_range_M (mkTimestamp 2023 1 1) (mkTimestamp 2023 3 1)
    = [mkTimestamp 2023 1 31; mkTimestamp 2023 2 28]
  ∧ query_items (query (self_after (set_query to_datetime_iso a)
                                   (init (py "sq"))))
    = [viti_muaji_selection [py "2023M01"; py "2023M02"]].
Proof. by vm_compute. Qed.

Example set_query_range_month_end_boundaries :
  date_values to_datetime_iso
    {| municipalities := None; months := None; year := None;
       start_date := Some (py "2023-01-31");
       end_date := Some (py "2023-03-31") |}
  = Return [py "2023M01"; py "2023M02"; py "2023M03"].
Proof. by vm_compute. Qed.

(** ** Orders *)

Section orders.
Implicit Types (a b c : pystr) (t u v : Timestamp) (x y z : DataRecord).

Lemma str_leb_total a b : str_leb a b = true ∨ str_leb b a = true.
Proof.
  revert b. induction a as [|p a IH]; intros [|q b]; simpl; auto.
  destruct (N.ltb_spec p q), (N.ltb_spec q p); auto; lia.
Qed.

Lemma str_leb_trans a b c :
  str_leb a b = true → str_leb b c = true → str_leb a c = true.
Proof.
  revert b c. induction a as [|p a IH]; intros [|q b] [|r c]; simpl; try done.
  destruct (N.ltb_spec p q), (N.ltb_spec q p), (N.ltb_spec q r),
    (N.ltb_spec r q), (N.ltb_spec p r), (N.ltb_spec r p);
    try done; try lia.
  apply IH.
Qed.

Lemma str_leb_antisym a b :
  str_leb a b = true → str_leb b a = true → a = b.
Proof.
  revert b. induction a as [|p a IH]; intros [|q b]; simpl; try done.
  destruct (N.ltb_spec p q), (N.ltb_spec q p); try done; try lia.
  intros Hab Hba. f_equal; [lia | by apply IH].
Qed.

Lemma ts_leb_true t u : ts_leb t u = true ↔ ts_le t u.
Proof.
  unfold ts_leb, ts_le.
  destruct (Z.ltb_spec (ts_year t) (ts_year u)),
    (Z.ltb_spec (ts_year u) (ts_year t)),
    (Z.ltb_spec (ts_month t) (ts_month u)),
    (Z.ltb_spec (ts_month u) (ts_month t));
    rewrite ?Z.leb_le; split; intros; try done; lia.
Qed.

Lemma ts_leb_false t u : ts_leb t u = false ↔ ¬ ts_le t u.
Proof. by rewrite <-ts_leb_true, not_true_iff_false. Qed.

Lemma ts_le_antisym t u : ts_le t u → ts_le u t → t = u.
Proof.
  unfold ts_le. destruct t, u. simpl. intros ? ?. f_equal; lia.
Qed.

(** [key_leb] compares the dates first and the names on equal dates. *)
Lemma key_leb_true x y :
  key_leb x y = true ↔
  ¬ ts_le (Date y) (Date x)
  ∨ Date x = Date y ∧ str_leb (Municipality x) (Municipality y) = true.
Proof.
  unfold key_leb.
  destruct (ts_leb (Date y) (Date x)) eqn:Hyx;
    destruct (ts_leb (Date x) (Date y)) eqn:Hxy; simpl;
    rewrite ?ts_leb_true, ?ts_leb_false in *.
  - pose proof (ts_le_antisym _ _ Hxy Hyx). split; [auto|].
    by intros [?|[_ ?]].
  - split; [done|]. intros [?|[Heq _]]; [done|]. by rewrite Heq in Hxy, Hyx.
  - split; auto.
  - split; auto.
Qed.

#[export] Instance key_le_total : Total key_le.
Proof.
  intros x y. unfold key_le. rewrite !Is_true_true, !key_leb_true.
  destruct (decide (Date x = Date y)) as [Heq|Hne].
  - destruct (str_leb_total (Municipality x) (Municipality y)); auto.
  - destruct (decide (ts_le (Date y) (Date x))) as [Hyx|]; [|auto].
    right. left. intros Hxy. by apply Hne, ts_le_antisym.
Qed.

#[export] Instance key_le_trans : Transitive key_le.
Proof.
  intros x y z. unfold key_le. rewrite !Is_true_true, !key_leb_true.
  unfold ts_le.
  intros [Hxy|[Hxy Sxy]] [Hyz|[Hyz Syz]].
  - left. lia.
  - left. rewrite <-Hyz. lia.
  - left. rewrite Hxy. lia.
  - right. split; [congruence|]. by eapply str_leb_trans.
Qed.

(** Two records that precede each other have the same sort key. *)
Lemma key_le_antisym x y :
  key_le x y → key_le y x →
  Date x = Date y ∧ Municipality x = Municipality y.
Proof.
  unfold key_le. rewrite !Is_true_true, !key_leb_true.
  intros [Hxy|[Hxy Sxy]] [Hyx|[Hyx Syx]].
  - exfalso. revert Hxy Hyx. unfold ts_le. lia.
  - exfalso. apply Hxy. rewrite Hyx. unfold ts_le. lia.
  - exfalso. apply Hyx. rewrite Hxy. unfold ts_le. lia.
  - split; [done|]. by apply str_leb_antisym.
Qed.
End orders.

#[export] Instance str_le_total : Total str_le.
Proof.
  intros a b. unfold str_le. rewrite !Is_true_true. apply str_leb_total.
Qed.

(** [sorted(list(set(xs)))] holds the elements of [xs], each once, in
    ascending order. *)
Lemma sorted_set_spec (xs : list pystr) :
  Sorted str_le (sorted_set xs)
  ∧ NoDup (sorted_set xs)
  ∧ ∀ x, x ∈ sorted_set xs ↔ x ∈ xs.
Proof.
  unfold sorted_set. split; [apply Sorted_merge_sort, _|]. split.
  - rewrite merge_sort_Permutation. apply NoDup_remove_dups.
  - intros x. rewrite merge_sort_Permutation. apply elem_of_remove_dups.
Qed.

(** ** The stable sort *)

Section sort_by.
Context {A : Type} (leb : A → A → bool).
Let R : relation A := λ x y, leb x y.
Context `{!Total R}.
Implicit Types (x : A) (l : list A).

Lemma insert_by_Permutation x l : insert_by leb x l ≡ₚ x :: l.
Proof.
  induction l as [|y l IH]; simpl; [done|].
  destruct (leb x y); [done|]. by rewrite IH, Permutation_swap.
Qed.

Lemma sort_by_Permutation l : sort_by leb l ≡ₚ l.
Proof.
  induction l as [|x l IH]; simpl; [done|].
  by rewrite insert_by_Permutation, IH.
Qed.

Lemma insert_by_Sorted x l : Sorted R l → Sorted R (insert_by leb x l).
Proof.
  induction 1 as [|y l Hl IH Hy]; simpl; [by repeat constructor|].
  destruct (leb x y) eqn:Hxy.
  - constructor; [by constructor|]. constructor. unfold R. by rewrite Hxy.
  - constructor; [done|].
    assert (R y x) as Hyx.
    { destruct (total R x y) as [Hx|]; [|done].
      unfold R in Hx. by rewrite Hxy in Hx. }
    destruct Hy as [|z l Hyz]; simpl; [by constructor|].
    destruct (leb x z); by constructor.
Qed.

Lemma sort_by_Sorted l : Sorted R (sort_by leb l).
Proof.
  induction l as [|x l IH]; simpl; [constructor|]. by apply insert_by_Sorted.
Qed.
End sort_by.

Lemma sort_values_Sorted df : StronglySorted key_le (sort_values df).
Proof.
  apply (Sorted_StronglySorted key_le).
  exact (sort_by_Sorted key_leb df).
Qed.

Lemma sort_values_Permutation df : sort_values df ≡ₚ df.
Proof. apply sort_by_Permutation. Qed.

(** Frames with the same records, no two of them with the same key, sort
    to the same frame. *)
Lemma sort_values_unique df df' :
  df ≡ₚ df' → NoDup (sort_key <$> df) → sort_values df = sort_values df'.
Proof.
  intros Hperm Hnodup.
  apply (Sorted_unique_strong key_le).
  - intros x y Hx Hy Hxy Hyx.
    rewrite sort_values_Permutation in Hx.
    rewrite sort_values_Permutation, <-Hperm in Hy.
    destruct (key_le_antisym x y Hxy Hyx) as [Hd Hm].
    apply list_elem_of_lookup in Hx as [i Hi], Hy as [j Hj].
    assert (i = j) as ->; [|congruence].
    apply (NoDup_lookup _ _ _ (sort_key x) Hnodup);
      rewrite list_lookup_fmap; [by rewrite Hi|].
    rewrite Hj. unfold sort_key. simpl. by rewrite Hd, Hm.
  - apply StronglySorted_Sorted, sort_values_Sorted.
  - apply StronglySorted_Sorted, sort_values_Sorted.
  - by rewrite !sort_values_Permutation.
Qed.

Example sort_values_is_stable :
  let r v := {| Date := mkTimestamp 2023 1 1; Municipality_Code := PStr (py "0");
                Municipality := py "Deçan"; Marriages := Some v |} in
  sort_values [r 1; r 2; r 3] = [r 1; r 2; r 3]
  ∧ sort_values [r 3; r 2; r 1] = [r 3; r 2; r 1].
Proof. by vm_compute. Qed.

(** ** Loops that stop at the first exception *)

Section traverse.
Context {A B : Type} (f : A → outcome B).
Implicit Types (l k : list A) (bs : list B).

Lemma traverse_cons_Return a l bs :
  traverse f (a :: l) = Return bs ↔
  ∃ b bs', f a = Return b ∧ traverse f l = Return bs' ∧ bs = b :: bs'.
Proof.
  simpl. destruct (f a) as [b|e]; simpl.
  - destruct (traverse f l) as [bs'|e]; simpl.
    + split; [intros [= <-]; eauto|]. by intros (? & ? & [= <-] & [= <-] & ->).
    + split; [done|]. by intros (? & ? & _ & ? & _).
  - split; [done|]. by intros (? & ? & ? & _).
Qed.


(** The results follow a reordering of the elements. *)
Lemma traverse_Permutation l k bs :
  l ≡ₚ k → traverse f l = Return bs →
  ∃ bs', traverse f k = Return bs' ∧ bs ≡ₚ bs'.
Proof.
  intros Hperm. revert bs.
  induction Hperm as [|a l k _ IH|a a' l|l k m _ IH1 _ IH2]; intros bs.
  - intros [= <-]. by exists [].
  - intros (b & bs' & Hb & Hl & ->)%traverse_cons_Return.
    destruct (IH _ Hl) as (cs & Hk & Hcs). exists (b :: cs). split.
    + apply traverse_cons_Return. eauto.
    + by constructor.
  - intros (b' & ? & Hb' & (b & bs' & Hb & Hl & ->)%traverse_cons_Return
            & ->)%traverse_cons_Return.
    exists (b :: b' :: bs'). split; [|by constructor].
    apply traverse_cons_Return. eexists _, _. split; [done|]. split; [|done].
    apply traverse_cons_Return. eauto.
  - intros (bs1 & Hk & H1)%IH1. destruct (IH2 _ Hk) as (bs2 & Hm & H2).
    exists bs2. split; [done|]. by etrans.
Qed.

Lemma traverse_length l bs : traverse f l = Return bs → length bs = length l.
Proof.
  revert bs. induction l as [|a l IH]; intros bs.
  - by intros [= <-].
  - intros (b & bs' & _ & Hl & ->)%traverse_cons_Return. simpl.
    by rewrite (IH _ Hl).
Qed.
End traverse.

(** ** More on loops *)

Section traverse_more.
Context {A B C : Type} (f : A → outcome B) (g : B → outcome C).
Implicit Types (l : list A) (bs : list B) (cs : list C).

(** Two loops, the second over the results of the first, as one loop. *)
Lemma traverse_compose l bs cs :
  traverse f l = Return bs → traverse g bs = Return cs →
  traverse (λ a, b ← f a; g b) l = Return cs.
Proof.
  revert bs cs. induction l as [|a l IH]; intros bs cs.
  - by intros [= <-] [= <-].
  - intros (b & bs' & Hb & Hl & ->)%traverse_cons_Return
           (c & cs' & Hc & Hbs & ->)%traverse_cons_Return.
    simpl. rewrite Hb. simpl. rewrite Hc. simpl. by rewrite (IH _ _ Hl Hbs).
Qed.

(** A loop whose body can only raise [e] raises [e] as soon as the body
    raises on one element. *)
Lemma traverse_Raise_only (e : exn) l :
  (∀ a e', a ∈ l → f a = Raise e' → e' = e) →
  (∃ a, a ∈ l ∧ f a = Raise e) → traverse f l = Raise e.
Proof.
  induction l as [|a l IH]; intros Honly (a' & Hin & Ha').
  { by apply elem_of_nil in Hin. }
  simpl. destruct (f a) as [b|e'] eqn:Ha; simpl.
  - rewrite IH; [done| |].
    + intros a0 e0 Hin0. apply Honly. by apply list_elem_of_further.
    + exists a'. split; [|done].
      apply elem_of_cons in Hin as [->|]; [congruence|done].
  - f_equal. eapply Honly; [apply list_elem_of_here|done].
Qed.
End traverse_more.

(** ** Period tokens, written and read *)

(** Every month that a [Timestamp] can hold, one by one. *)
Lemma reads_back_all (i : Z) :
  1677 * 12 + 9 ≤ i ≤ 2262 * 12 + 3 →
  reads_back (i `div` 12) (i `mod` 12 + 1) = true.
Proof.
  intros Hi.
  assert (forallb (λ i, reads_back (i `div` 12) (i `mod` 12 + 1))
            (seqZ (1677 * 12 + 9) 7015) = true) as Hall
    by (vm_compute; reflexivity).
  rewrite forallb_forall in Hall. apply Hall.
  apply list_elem_of_In, elem_of_seqZ. lia.
Qed.

(** A token is read as the first day of the month it names. *)
Lemma period_token_to_datetime (s : pystr) (t : Timestamp) :
  period_token s t → to_datetime_Ym (replace_M s) = Some t.
Proof.
  intros [(Hd & Hm & Hi) ->]. unfold month_index in Hi.
  pose proof (reads_back_all _ Hi) as Hall.
  replace ((ts_year t * 12 + (ts_month t - 1)) `div` 12) with (ts_year t)
    in Hall by (apply (Z.div_unique _ 12 _ (ts_month t - 1)); lia).
  replace ((ts_year t * 12 + (ts_month t - 1)) `mod` 12 + 1)
    with (ts_month t) in Hall
    by (rewrite <-(Z.mod_unique _ 12 (ts_year t) (ts_month t - 1)); lia).
  unfold reads_back in Hall. apply bool_decide_eq_true in Hall.
  destruct t as [y m d]. simpl in *. by subst.
Qed.

(** A digit is not the letter [M]. *)
Lemma digit_value_not_M (c : N) (d : Z) :
  digit_value c = Some d → (c =? 77)%N = false.
Proof.
  unfold digit_value.
  destruct (N.leb_spec 48 c), (N.leb_spec c 57); simpl; try done.
  intros _. apply N.eqb_neq. lia.
Qed.

(** A month that is no month is not read. *)
Lemma period_shape_to_datetime (s : pystr) (y m : Z) :
  period_shape s y m → ¬ 1 ≤ m ≤ 12 → to_datetime_Ym (replace_M s) = None.
Proof.
  intros (y1 & y2 & y3 & y4 & m1 & m2 & -> & Hy & Hmm) Hbad.
  assert (replace_M [y1; y2; y3; y4; 77%N; m1; m2]
          = [y1; y2; y3; y4; 45%N; m1; m2]) as ->.
  { unfold decimal in Hy, Hmm. simpl in Hy, Hmm.
    destruct (digit_value y1) eqn:H1; [|done].
    destruct (digit_value y2) eqn:H2; [|done].
    destruct (digit_value y3) eqn:H3; [|done].
    destruct (digit_value y4) eqn:H4; [|done].
    destruct (digit_value m1) eqn:H5; [|done].
    destruct (digit_value m2) eqn:H6; [|done].
    unfold replace_M. simpl.
    by rewrite (digit_value_not_M _ _ H1), (digit_value_not_M _ _ H2),
      (digit_value_not_M _ _ H3), (digit_value_not_M _ _ H4),
      (digit_value_not_M _ _ H5), (digit_value_not_M _ _ H6). }
  unfold to_datetime_Ym. cbv zeta. rewrite bool_decide_true by done.
  rewrite Hy. cbn [mbind option_bind]. rewrite Hmm. cbn [mbind option_bind].
  by rewrite bool_decide_false.
Qed.

(** ** The sort keeps the order of equal keys *)

Lemma ts_leb_refl (t : Timestamp) : ts_leb t t = true.
Proof. apply ts_leb_true. unfold ts_le. lia. Qed.

Lemma str_leb_refl (a : pystr) : str_leb a a = true.
Proof. by destruct (str_leb_total a a). Qed.

Lemma key_leb_same_key (a b : DataRecord) :
  sort_key a = sort_key b → key_leb a b = true.
Proof.
  unfold sort_key, key_leb. intros [= -> ->].
  by rewrite ts_leb_refl, str_leb_refl.
Qed.

Lemma insert_by_with_key k (x : DataRecord) (l : list DataRecord) :
  with_key k (insert_by key_leb x l) = with_key k (x :: l).
Proof.
  unfold with_key. induction l as [|y l IH]; simpl; [done|].
  destruct (key_leb x y) eqn:Hxy; [done|].
  rewrite (filter_cons _ y), IH, !filter_cons.
  destruct (decide (sort_key y = k)) as [Hy|Hy],
           (decide (sort_key x = k)) as [Hx|Hx]; try done.
  rewrite key_leb_same_key in Hxy; [done|congruence].
Qed.

Lemma sort_values_with_key k (df : list DataRecord) :
  with_key k (sort_values df) = with_key k df.
Proof.
  unfold sort_values. induction df as [|x df IH]; simpl; [done|].
  rewrite insert_by_with_key. unfold with_key in *.
  by rewrite !filter_cons, IH.
Qed.

(** ** Properties of the tabulation *)

Section get_data_as_df.
Implicit Types (int_str : pystr → outcome Z) (self : ASK).
Implicit Types (data item : pyval) (df : list DataRecord).

(** A response that has items is a non-empty dict. *)
Lemma response_items_truthy data items :
  response_items data = Return items → truthy data = true.
Proof. destruct data as [| | | | |[|??]]; done. Qed.

(** The ways [get_data_as_df] returns a frame. *)
Lemma get_data_as_df_Return int_str self data df :
  get_data_as_df int_str self data = Return (Some df) ↔
  ∃ items rows recs,
    response_items data = Return items
    ∧ traverse (process_item int_str self) items = Return rows
    ∧ rows ≠ []
    ∧ forallb (λ r, is_str (row_Date r)) rows = true
    ∧ traverse record_of_row rows = Return recs
    ∧ df = sort_values recs.
Proof.
  unfold get_data_as_df. split.
  - destruct (truthy data); simpl; [|done].
    destruct (response_items data) as [items|]; simpl; [|done].
    destruct (traverse (process_item int_str self) items) as [rows|] eqn:Hrows;
      simpl; [|done].
    unfold frame_of_rows. destruct rows as [|r rows]; [done|].
    destruct (forallb _ (r :: rows)) eqn:Hstr; [|done].
    destruct (traverse record_of_row (r :: rows)) as [recs|] eqn:Hrecs;
      simpl; [|done].
    intros [= <-]. by exists items, (r :: rows), recs.
  - intros (items & rows & recs & Hitems & Hrows & Hne & Hstr & Hrecs & ->).
    rewrite (response_items_truthy _ _ Hitems), Hitems. simpl.
    rewrite Hrows. simpl. unfold frame_of_rows.
    destruct rows as [|r rows]; [done|]. by rewrite Hstr, Hrecs.
Qed.

(** C2, as amended: when the response has no ['data'] key, a non-empty
    response object makes [get_data_as_df] raise [KeyError] (and any other
    true value [TypeError]), while an empty or otherwise false response is
    answered with [None]; in no case is a frame returned. *)
Theorem get_data_as_df_without_data int_str self data :
  (∀ d, data = PDict d → dict_lookup d (py "data") = None) →
  (truthy data = true →
   get_data_as_df int_str self data
   = Raise (match data with PDict _ => KeyError | _ => TypeError end))
  ∧ (truthy data = false → get_data_as_df int_str self data = Return None)
  ∧ ∀ df, get_data_as_df int_str self data ≠ Return (Some df).
Proof.
  intros Hno.
  assert (response_items data
          = Raise (match data with PDict _ => KeyError | _ => TypeError end))
    as Hitems.
  { unfold response_items. destruct data as [| | | | |d]; try done.
    simpl. by rewrite (Hno d). }
  split; [|split].
  - intros Ht. unfold get_data_as_df. by rewrite Ht, Hitems.
  - intros Ht. unfold get_data_as_df. by rewrite Ht.
  - intros df (items & _ & _ & Hret & _)%get_data_as_df_Return.
    by rewrite Hitems in Hret.
Qed.

Lemma get_data_as_df_without_data_witness :
  let self := init (py "sq") in
  get_data_as_df int_ascii self (PDict [(py "error", PStr (py "no table"))])
  = Raise KeyError
  ∧ get_data_as_df int_ascii self (PList [PInt 1]) = Raise TypeError
  ∧ get_data_as_df int_ascii self PNone = Return None.
Proof.
  intros self.
  pose proof (get_data_as_df_without_data int_ascii self
                (PDict [(py "error", PStr (py "no table"))])) as [H1 _].
  { by intros d [= <-]. }
  pose proof (get_data_as_df_without_data int_ascii self (PList [PInt 1]))
    as [H2 _].
  { by intros d [=]. }
  pose proof (get_data_as_df_without_data int_ascii self PNone) as (_ & H3 & _).
  { by intros d [=]. }
  split; [exact (H1 eq_refl)|]. split; [exact (H2 eq_refl)|exact (H3 eq_refl)].
Defined.

(** C2 as stated fails on the empty response object: ['data'] is absent
    and the call returns [None] instead of raising. *)
Lemma get_data_as_df_empty_response :
  let self := init (py "sq") in
  dict_lookup [] (py "data") = None
  ∧ get_data_as_df int_ascii self (PDict []) = Return None
  ∧ ¬ ∃ e, get_data_as_df int_ascii self (PDict []) = Raise e.
Proof. intros self. split; [done|]. split; [done|]. by intros [e ?]. Qed.



(** The frame holds one record per item of the response. *)
Lemma get_data_as_df_length int_str self data items df :
  response_items data = Return items →
  get_data_as_df int_str self data = Return (Some df) →
  length df = length items.
Proof.
  intros Hitems (items' & rows & recs & Hitems' & Hrows & _ & _ & Hrecs & ->)
    %get_data_as_df_Return.
  rewrite Hitems in Hitems'. injection Hitems' as <-.
  rewrite sort_values_Permutation.
  by rewrite (traverse_length _ _ _ Hrecs), (traverse_length _ _ _ Hrows).
Qed.

Lemma well_formed_row_intro (s : pystr) (t : Timestamp) (code name : pystr)
    (m : option Z) :
  period_token s t → exact_metric m →
  well_formed_row (mkRow (PStr s) (PStr code) name m).
Proof. intros Ht Hm. split; [by exists s, t|done]. Qed.

Lemma bad_month_row_intro (s : pystr) (y m : Z) (code name : pystr)
    (v : option Z) :
  period_shape s y m → ¬ 1 ≤ m ≤ 12 → exact_metric v →
  bad_month_row (mkRow (PStr s) (PStr code) name v).
Proof. intros Hs Hm Hv. split; [by exists s, y, m|done]. Qed.

Lemma three_rows_well_formed : Forall well_formed_row three_rows_rows.
Proof.
  unfold three_rows_rows.
  constructor; [|constructor; [|constructor; [|constructor]]].
  - apply (well_formed_row_intro _ (mkTimestamp 2023 2 1)); [done|].
    intros n [= <-]. lia.
  - by apply (well_formed_row_intro _ (mkTimestamp 2023 1 1)).
  - apply (well_formed_row_intro _ (mkTimestamp 2023 1 1)); [done|].
    intros n [= <-]. lia.
Qed.

(** The period of a well-formed row is read. *)
Lemma record_of_well_formed_row (r : Row) :
  well_formed_row r →
  ∃ s t, row_Date r = PStr s ∧ period_token s t
         ∧ record_of_row r
           = Return {| Date := t;
                       Municipality_Code := row_Municipality_Code r;
                       Municipality := row_Municipality r;
                       Marriages := row_Marriages r |}.
Proof.
  intros ((s & t & Hs & Ht) & _). exists s, t. split; [done|]. split; [done|].
  unfold record_of_row. by rewrite Hs, (period_token_to_datetime s t Ht).
Qed.

Lemma traverse_well_formed_rows (rows : list Row) :
  Forall well_formed_row rows →
  forallb (λ r, is_str (row_Date r)) rows = true
  ∧ ∃ recs, traverse record_of_row rows = Return recs.
Proof.
  induction 1 as [|r rows Hr _ [IHstr [recs IH]]]; [by eauto|].
  destruct (record_of_well_formed_row r Hr) as (s & t & Hs & _ & Hrec).
  split.
  - simpl. by rewrite Hs, IHstr.
  - eexists. simpl. by rewrite Hrec, IH.
Qed.

(** A response of well-formed rows, at least one, is tabulated. *)
Lemma get_data_as_df_well_formed int_str self data items rows :
  response_items data = Return items →
  traverse (process_item int_str self) items = Return rows →
  items ≠ [] → Forall well_formed_row rows →
  ∃ recs,
    traverse record_of_row rows = Return recs
    ∧ get_data_as_df int_str self data = Return (Some (sort_values recs)).
Proof.
  intros Hitems Hrows Hne Hwf.
  destruct (traverse_well_formed_rows rows Hwf) as [Hstr [recs Hrecs]].
  exists recs. split; [done|].
  apply get_data_as_df_Return. exists items, rows, recs.
  repeat (split; [done|]). split; [|done].
  intros ->. apply traverse_length in Hrows. by destruct items.
Qed.

(** C7, as amended: a response of well-formed rows, at least one, is
    tabulated to a frame whose records are sorted ascending by (Date,
    Municipality), every record standing before all records it does not
    follow; the records that share a date and a municipality name keep the
    order their rows have in the response; and the frame does not depend
    on the order of the rows in the response when no two of its records
    share a date and a municipality name: every response with the same
    rows in another order gives the same frame. *)
Theorem get_data_as_df_sorted int_str self data items rows :
  response_items data = Return items →
  traverse (process_item int_str self) items = Return rows →
  items ≠ [] → Forall well_formed_row rows →
  ∃ df recs,
    get_data_as_df int_str self data = Return (Some df)
    ∧ traverse (record_of_item int_str self) items = Return recs
    ∧ StronglySorted key_le df
    ∧ (∀ k, with_key k df = with_key k recs)
    ∧ ∀ data' items',
        response_items data' = Return items' →
        items ≡ₚ items' →
        NoDup (sort_key <$> df) →
        get_data_as_df int_str self data' = Return (Some df).
Proof.
  intros Hitems Hrows Hne Hwf.
  destruct (get_data_as_df_well_formed _ _ _ _ _ Hitems Hrows Hne Hwf)
    as (recs & Hrecs & Hdf).
  exists (sort_values recs), recs. split; [done|].
  split; [by eapply traverse_compose|].
  split; [apply sort_values_Sorted|].
  split; [intros k; apply sort_values_with_key|].
  intros data' items' Hitems' Hperm Hnodup.
  destruct (traverse_Permutation _ _ _ _ Hperm Hrows) as (rows' & Hrows' & Hr).
  assert (items' ≠ []) as Hne'.
  { intros ->. by apply Permutation_nil_r in Hperm. }
  assert (Forall well_formed_row rows') as Hwf' by (by rewrite <-Hr).
  destruct (get_data_as_df_well_formed _ _ _ _ _ Hitems' Hrows' Hne' Hwf')
    as (recs' & Hrecs' & ->).
  do 2 f_equal. symmetry. apply sort_values_unique.
  - destruct (traverse_Permutation _ _ _ _ Hr Hrecs) as (recs'' & Hrecs'' & Hd).
    rewrite Hrecs' in Hrecs''. by injection Hrecs'' as <-.
  - by rewrite <-(sort_values_Permutation recs).
Qed.

Lemma get_data_as_df_sorted_witness :
  let self := init (py "sq") in
  get_data_as_df int_ascii self (response three_rows)
  = Return (Some three_rows_frame)
  ∧ StronglySorted key_le three_rows_frame
  ∧ get_data_as_df int_ascii self (response (reverse three_rows))
    = Return (Some three_rows_frame).
Proof.
  intros self.
  destruct (get_data_as_df_sorted int_ascii self (response three_rows)
              three_rows three_rows_rows)
    as (df & recs & Hdf & _ & Hsorted & _ & Hperm).
  - reflexivity.
  - by vm_compute.
  - done.
  - apply three_rows_well_formed.
  - assert (df = three_rows_frame) as ->.
    { vm_compute in Hdf. injection Hdf as <-. vm_compute. reflexivity. }
    split; [exact Hdf|]. split; [exact Hsorted|].
    apply (Hperm _ (reverse three_rows)).
    + reflexivity.
    + symmetry. apply reverse_Permutation.
    + apply (bool_decide_unpack _). vm_compute. reflexivity.
Defined.

(** C7 as stated fails when two rows share their date and municipality:
    the same two rows in the two possible orders give two different
    frames, each keeping the order of its response. *)
Lemma get_data_as_df_keeps_order_of_ties :
  let self := init (py "sq") in
  let r1 := item "2023M01" "18" "1" in
  let r2 := item "2023M01" "18" "2" in
  [r1; r2] ≡ₚ [r2; r1]
  ∧ marriages_of (get_data_as_df int_ascii self (response [r1; r2]))
    = Return (Some [Some 1; Some 2])
  ∧ marriages_of (get_data_as_df int_ascii self (response [r2; r1]))
    = Return (Some [Some 2; Some 1])
  ∧ get_data_as_df int_ascii self (response [r1; r2])
    ≠ get_data_as_df int_ascii self (response [r2; r1]).
Proof.
  intros self r1 r2. split; [apply Permutation_swap|].
  split; [by vm_compute|]. split; [by vm_compute|].
  intros Heq.
  assert (marriages_of (get_data_as_df int_ascii self (response [r1; r2]))
          = marriages_of (get_data_as_df int_ascii self (response [r2; r1])))
    as Hm by (by rewrite Heq).
  vm_compute in Hm. discriminate Hm.
Qed.

(** A response without rows gives no frame: the frame built from no row
    has no ['Date'] column. *)
Example get_data_as_df_no_rows int_str self :
  get_data_as_df int_str self (response []) = Raise KeyError.
Proof. done. Qed.
End get_data_as_df.

(** ** More on path navigation *)

Section navigation_more.
Implicit Types (self : ASK) (p q : list pystr) (s t : pystr).

Lemma set_current_path_id self : set_current_path (current_path self) self = self.
Proof. by destruct self. Qed.

(** X1: descending by one or more segments and ascending by as many levels
    gives the client back as it was. *)
Theorem go_down_go_up (self : ASK) (args : list pystr) :
  args ≠ [] →
  self_after (go_up (Z.of_nat (length args))) (self_after (go_down args) self)
  = self.
Proof.
  intros Hargs.
  assert (0 < Z.of_nat (length args)) by (destruct args; [done|simpl; lia]).
  unfold self_after. simpl. unfold set_current_path. simpl.
  rewrite slice_to_positive_levels by done.
  rewrite length_app, Nat2Z.id.
  replace (length (current_path self) + length args - length args)%nat
    with (length (current_path self)) by lia.
  rewrite take_app_length. by destruct self.
Qed.

Lemma go_down_go_up_witness :
  let self := self_after (go_down [py "Population"]) (init (py "sq")) in
  self_after (go_up 2)
    (self_after (go_down [py "Marriages"; py "tab05.px"]) self) = self.
Proof.
  intros self.
  exact (go_down_go_up self [py "Marriages"; py "tab05.px"] ltac:(discriminate)).
Defined.

(** X2: two ascents by [m] and [n] levels, both at least one, are one
    ascent by [m + n] levels, also when they pass the root. *)
Theorem go_up_go_up (self : ASK) (m n : Z) :
  1 ≤ m → 1 ≤ n →
  self_after (go_up n) (self_after (go_up m) self)
  = self_after (go_up (m + n)) self.
Proof.
  intros Hm Hn. unfold self_after. simpl. unfold set_current_path. simpl.
  rewrite !slice_to_positive_levels by lia.
  rewrite length_take, take_take. do 2 f_equal. lia.
Qed.

Lemma go_up_go_up_witness :
  let self := self_after (go_down [py "a"; py "b"; py "c"]) (init (py "sq")) in
  current_path (self_after (go_up 1) (self_after (go_up 1) self)) = [py "a"]
  ∧ self_after (go_up 3) (self_after (go_up 2) self)
    = self_after (go_up 5) self.
Proof.
  intros self. split.
  - rewrite (go_up_go_up self 1 1) by lia. vm_compute. reflexivity.
  - apply (go_up_go_up self 2 3); lia.
Defined.

(** X3: whatever [levels] is (zero and negative values included), [go_up]
    only cuts the path: the new path is a prefix of the old one, and a
    negative [levels] keeps the first [-levels] segments. *)
Theorem go_up_prefix (self : ASK) (levels : Z) :
  current_path (self_after (go_up levels) self) `prefix_of` current_path self
  ∧ (levels < 0 →
     current_path (self_after (go_up levels) self)
     = take (Z.to_nat (- levels)) (current_path self)).
Proof.
  rewrite go_up_path. unfold slice_to. split.
  - case_match; apply prefix_take.
  - intros Hneg. destruct (Z.ltb_spec (- levels) 0); [lia|done].
Qed.

Lemma go_up_prefix_witness :
  let self := self_after (go_down [py "a"; py "b"; py "c"]) (init (py "sq")) in
  current_path (self_after (go_up (-2)) self) = [py "a"; py "b"].
Proof.
  intros self. destruct (go_up_prefix self (-2)) as [_ Hneg].
  rewrite Hneg by lia. vm_compute. reflexivity.
Defined.

Lemma join_cons sep s p :
  join sep (s :: p) = s ++ match p with [] => [] | _ => sep ++ join sep p end.
Proof. destruct p; simpl; [by rewrite app_nil_r|done]. Qed.

(** Two slash-free strings followed by nothing or by a slash agree when the
    whole strings agree. *)
Lemma slash_free_app_inj s t (x y : pystr) :
  47%N ∉ s → 47%N ∉ t →
  (x = [] ∨ ∃ x', x = 47%N :: x') → (y = [] ∨ ∃ y', y = 47%N :: y') →
  s ++ x = t ++ y → s = t ∧ x = y.
Proof.
  revert t. induction s as [|c s IH]; intros [|d t] Hs Ht Hx Hy; simpl.
  - done.
  - intros ->. destruct Hx as [[=]|[x' [= -> _]]].
    destruct Ht. apply list_elem_of_here.
  - intros <-. destruct Hy as [[=]|[y' [= -> _]]].
    destruct Hs. apply list_elem_of_here.
  - intros [= -> Heq].
    apply not_elem_of_cons in Hs as [_ Hs], Ht as [_ Ht].
    destruct (IH t Hs Ht Hx Hy Heq) as [-> ->]. done.
Qed.

Lemma join_plain_inj p q :
  Forall plain_segment p → Forall plain_segment q →
  join (py "/") p = join (py "/") q → p = q.
Proof.
  intros Hp. revert q.
  induction Hp as [|s p [Hs Hs'] Hp IH]; intros q Hq.
  - destruct Hq as [|t q [Ht _] _]; [done|].
    rewrite join_cons. simpl. by destruct t.
  - destruct Hq as [|t q [Ht Ht'] Hq].
    { rewrite join_cons. simpl. by destruct s. }
    rewrite !join_cons. intros Heq.
    apply slash_free_app_inj in Heq as [-> Hrest]; [|done|done|..].
    + f_equal. destruct p as [|s' p], q as [|t' q]; try done.
      apply IH; [done|]. by injection Hrest.
    + destruct p; [by left|right; by eexists].
    + destruct q; [by left|right; by eexists].
Qed.

(** X4: two positions under the same base address have the same URL only
    if they are the same path, provided every segment is non-empty and
    holds no ['/']. *)
Theorem get_url_inj (self1 self2 : ASK) :
  base_url self1 = base_url self2 →
  Forall plain_segment (current_path self1) →
  Forall plain_segment (current_path self2) →
  get_url self1 = get_url self2 → current_path self1 = current_path self2.
Proof.
  intros Hbase H1 H2. unfold get_url. rewrite Hbase.
  intros Heq%app_inv_head%app_inv_head. by apply join_plain_inj.
Qed.

Lemma get_url_inj_witness :
  let self1 := self_after (go_down [py "Population"; py "Marriages"])
                 (init (py "sq")) in
  let self2 := self_after (go_up 1)
                 (self_after (go_down [py "Population"; py "Marriages"; py "x"])
                    (init (py "sq"))) in
  get_url self1 = py "http://askdata.rks-gov.net/api/v1/sq/ASKdata/Population/Marriages"
  ∧ current_path self1 = current_path self2.
Proof.
  intros self1 self2. split; [vm_compute; reflexivity|].
  apply (get_url_inj self1 self2).
  - vm_compute. reflexivity.
  - apply (bool_decide_unpack _). vm_compute. reflexivity.
  - apply (bool_decide_unpack _). vm_compute. reflexivity.
  - vm_compute. reflexivity.
Defined.

(** Without the proviso the URL does not tell paths apart. *)
Example get_url_collisions :
  let at_ p := self_after (go_down p) (init (py "sq")) in
  get_url (at_ [py "a/b"]) = get_url (at_ [py "a"; py "b"])
  ∧ get_url (at_ [py ""]) = get_url (at_ []).
Proof. by vm_compute. Qed.
End navigation_more.

(** ** More on the registry *)

Section registry_more.
Implicit Types (items : list (pystr * pystr)).

(** Every entry of the reverse dict is the folded name of an item. *)
Lemma reverse_of_items_inv items n k :
  reverse_of_items items !! n = Some k → ∃ v, (k, v) ∈ items ∧ lower v = n.
Proof.
  induction items as [|[k' v'] items IH] using rev_ind; [done|].
  rewrite reverse_of_items_snoc, lookup_insert.
  setoid_rewrite elem_of_app.
  case_decide; intros Hk; simplify_eq.
  - exists v'. split; [|done]. right. apply list_elem_of_here.
  - destruct (IH Hk) as (v & Hin & Hv). eauto.
Qed.

(** With pairwise distinct codes every item is a binding of the dict. *)
Lemma dict_of_items_elem items k v :
  NoDup items.*1 → (k, v) ∈ items → dict_of_items items !! k = Some v.
Proof.
  induction items as [|[k' v'] items IH] using rev_ind.
  { by intros _ ?%elem_of_nil. }
  rewrite fmap_app, NoDup_app, dict_of_items_snoc, lookup_insert.
  intros (Hnd & Hfresh & _) [Hin|Hin]%elem_of_app.
  - case_decide as Hk; [|by apply IH].
    exfalso. simplify_eq. apply (Hfresh k); [|apply list_elem_of_here].
    apply list_elem_of_fmap. by exists (k, v).
  - apply list_elem_of_singleton in Hin. simplify_eq. by rewrite decide_True.
Qed.
End registry_more.

Lemma municipality_codes_NoDup : NoDup municipality_items.*1.
Proof. apply (bool_decide_unpack _). by vm_compute. Qed.

Lemma municipality_names_NoDup_exact : NoDup municipality_items.*2.
Proof. apply (NoDup_fmap_1 lower), municipality_names_NoDup. Qed.

(** The forward dict holds exactly the items of the literal. *)
Lemma municipality_map_items lang code name :
  municipality_map (init lang) !! code = Some name
  ↔ (code, name) ∈ municipality_items.
Proof.
  split; [apply dict_of_items_lookup|].
  apply dict_of_items_elem, municipality_codes_NoDup.
Qed.

(** X5: for a name written in code points up to U+00FF,
    [get_municipality_code] finds a code exactly when the name equals a
    registered name up to letter case, and the code found is the code of
    that registered name; every other such name gives [None]. *)
Theorem get_municipality_code_spec (lang name code : pystr) :
  latin1 name →
  get_municipality_code (init lang) name = Some code
  ↔ ∃ name', municipality_map (init lang) !! code = Some name'
             ∧ lower name' = lower name.
Proof.
  intros _. unfold get_municipality_code. split.
  - intros (name' & Hin & Hl)%reverse_of_items_inv.
    exists name'. split; [|done]. by apply (municipality_map_items lang).
  - intros (name' & Hin%municipality_map_items & <-).
    by apply reverse_of_items_lookup; [apply municipality_names_NoDup|].
Qed.

Lemma get_municipality_code_spec_witness :
  get_municipality_code (init (py "sq")) (py "gjAKOVË") = Some (py "1")
  ∧ get_municipality_code (init (py "sq")) (py "Gjakove") = None.
Proof.
  split.
  - apply (get_municipality_code_spec (py "sq") (py "gjAKOVË") (py "1")).
    + apply (bool_decide_unpack _). by vm_compute.
    + exists (py "Gjakovë"). split; by vm_compute.
  - by vm_compute.
Defined.

Example get_municipality_code_examples lang :
  get_municipality_code (init lang) (py "gjAKOVË") = Some (py "1")
  ∧ get_municipality_code (init lang) (py "Gjakove") = None
  ∧ get_municipality_code (init lang) (py " Gjakovë") = None
  ∧ get_municipality_code (init lang) (py "") = None.
Proof. by vm_compute. Qed.

(** The dict comprehension [{v: k for k, v in m.items()}] of a dict without
    two keys of one value. *)
Lemma inverse_dict_lookup (m : gmap pystr pystr) (name code : pystr) :
  (∀ k1 k2 v, m !! k1 = Some v → m !! k2 = Some v → k1 = k2) →
  (list_to_map ((λ kv, (kv.2, kv.1)) <$> map_to_list m) : gmap pystr pystr)
    !! name = Some code
  ↔ m !! code = Some name.
Proof.
  intros Hinj. rewrite <-elem_of_list_to_map.
  - rewrite list_elem_of_fmap. split.
    + intros ([k v] & [= -> ->] & Hin). by apply elem_of_map_to_list.
    + intros Hin. exists (code, name). split; [done|].
      by apply elem_of_map_to_list.
  - rewrite <-list_fmap_compose.
    apply (NoDup_fmap_2_strong snd); [|apply NoDup_map_to_list].
    intros [k1 v1] [k2 v2] H1%elem_of_map_to_list H2%elem_of_map_to_list.
    simpl. intros <-. f_equal. by eapply Hinj.
Qed.

(** X6: [get_available_municipalities] is the registry read backwards: it
    maps a name to a code exactly when the registry maps that code to that
    name; and every name it lists resolves, through
    [get_municipality_code], to the code it lists. *)
Theorem get_available_municipalities_spec (lang name code : pystr) :
  (get_available_municipalities (init lang) !! name = Some code
   ↔ municipality_map (init lang) !! code = Some name)
  ∧ (get_available_municipalities (init lang) !! name = Some code →
     get_municipality_code (init lang) name = Some code).
Proof.
  assert (get_available_municipalities (init lang) !! name = Some code
          ↔ municipality_map (init lang) !! code = Some name) as Hiff.
  { apply inverse_dict_lookup.
    intros k1 k2 v H1%municipality_map_items H2%municipality_map_items.
    pose proof municipality_names_NoDup_exact as Hnd.
    apply list_elem_of_lookup in H1 as [i Hi], H2 as [j Hj].
    assert (i = j) as ->; [|congruence].
    apply (NoDup_lookup _ _ _ v Hnd); by rewrite list_lookup_fmap, ?Hi, ?Hj. }
  split; [done|]. intros Hname%Hiff%municipality_map_items.
  unfold get_municipality_code.
  by apply reverse_of_items_lookup; [apply municipality_names_NoDup|].
Qed.

Example get_available_municipalities_Prishtine lang :
  get_available_municipalities (init lang) !! py "Prishtinë" = Some (py "18")
  ∧ get_available_municipalities (init lang) !! py "prishtinë" = None
  ∧ size (get_available_municipalities (init lang)) = 40%nat.
Proof. by vm_compute. Qed.

(** ** More on the query construction *)

#[export] Instance str_le_trans : Transitive str_le.
Proof.
  intros a b c. unfold str_le. rewrite !Is_true_true. apply str_leb_trans.
Qed.

#[export] Instance str_le_antisym : AntiSymm (=) str_le.
Proof.
  intros a b. unfold str_le. rewrite !Is_true_true. apply str_leb_antisym.
Qed.

Lemma str_leb_app (p a b : pystr) : str_leb (p ++ a) (p ++ b) = str_leb a b.
Proof.
  induction p as [|c p IH]; simpl; [done|]. by rewrite N.ltb_irrefl.
Qed.

Lemma remove_dups_NoDup (xs : list pystr) : NoDup xs → remove_dups xs = xs.
Proof.
  induction 1 as [|x xs Hx _ IH]; simpl; [done|].
  destruct (decide_rel elem_of x xs); [done|]. by rewrite IH.
Qed.

(** A list that is already sorted and without duplicates is its own
    [sorted(list(set(...)))]. *)
Lemma sorted_set_id (xs : list pystr) :
  Sorted str_le xs → NoDup xs → sorted_set xs = xs.
Proof.
  intros Hsorted Hnd. apply (Sorted_unique str_le); [|done|].
  - apply sorted_set_spec.
  - unfold sorted_set. by rewrite merge_sort_Permutation, remove_dups_NoDup.
Qed.

Lemma sorted_set_nil (xs : list pystr) : sorted_set xs = [] ↔ xs = [].
Proof.
  split; [|by intros ->].
  intros Hnil. apply elem_of_nil_inv. intros x Hx.
  apply (sorted_set_spec xs) in Hx. rewrite Hnil in Hx. by apply elem_of_nil in Hx.
Qed.

Lemma year_tokens_sorted (year_str : pystr) :
  Sorted str_le (year_tokens year_str) ∧ NoDup (year_tokens year_str).
Proof.
  unfold year_tokens.
  assert ((λ m, year_str ++ py "M" ++ zfill 2 (str_of_Z m)) <$> seqZ 1 12
          = (year_str ++.) <$> ((λ m, py "M" ++ zfill 2 (str_of_Z m))
                                <$> seqZ 1 12)) as ->
    by (by rewrite <-list_fmap_compose).
  split.
  - apply (Sorted_fmap _ str_le str_le).
    + intros a b. unfold str_le. by rewrite str_leb_app.
    + apply (bool_decide_unpack _). by vm_compute.
  - apply (NoDup_fmap_2 _). apply (bool_decide_unpack _). by vm_compute.
Qed.

Section set_query_more.
Variable to_datetime : pystr → outcome Timestamp.
Implicit Types (self : ASK) (a : set_query_args).

(** X7: whatever the arguments and whether or not the call raises,
    [set_query] leaves a query of the format ["json"] that holds at most
    the geography selection ["Komuna"] followed by at most the period
    selection ["Viti-muaji"], each with the filter ["item"] and at least
    one value. *)
Theorem set_query_shape a self :
  let q := query (self_after (set_query to_datetime a) self) in
  response_format q = py "json"
  ∧ ∃ geo per,
      query_items q = geo ++ per
      ∧ (geo = [] ∨ ∃ codes, codes ≠ [] ∧
           geo = [{| code := py "Komuna"; filter := py "item";
                     values := codes |}])
      ∧ (per = [] ∨ ∃ tokens, tokens ≠ [] ∧
           per = [{| code := py "Viti-muaji"; filter := py "item";
                     values := tokens |}]).
Proof.
  intros q. subst q. rewrite set_query_query. split; [done|].
  eexists _, _. split; [done|]. split.
  - unfold komuna_part. case_bool_decide as Hc; [|by left].
    right. by eexists.
  - unfold viti_muaji_part.
    destruct (date_values to_datetime a) as [dv|]; [|by left].
    case_bool_decide as Hdv; [|by left].
    right. eexists. split; [|done]. by rewrite sorted_set_nil.
Qed.

(** X8: when the date part returns tokens, the period selection is the last
    selection of the query, and its values are these tokens in ascending
    order, each once, however often [months], [year] and the range name
    the same month. *)
Theorem set_query_period_values a self (dv : list pystr) :
  date_values to_datetime a = Return dv → dv ≠ [] →
  ∃ tokens,
    last (query_items (query (self_after (set_query to_datetime a) self)))
    = Some (viti_muaji_selection tokens)
    ∧ Sorted str_le tokens ∧ NoDup tokens ∧ ∀ x, x ∈ tokens ↔ x ∈ dv.
Proof.
  intros Hdv Hne. exists (sorted_set dv). split; [|apply sorted_set_spec].
  rewrite set_query_query, Hdv. simpl.
  rewrite bool_decide_true by done. by rewrite last_snoc.
Qed.

(** The date part without a usable range: [pd.to_datetime] is not called. *)
Lemma date_values_no_range a :
  range_given a = false →
  date_values to_datetime a = Return (months_and_year_tokens a).
Proof.
  unfold range_given, date_values, months_and_year_tokens. intros Hr.
  assert ((let date_values := [] in
           let date_values :=
             if truthy_str_or_list (months a)
             then date_values ++ listify (months a) else date_values in
           match year a with
           | Some y =>
               if truthy_int_or_str (year a)
               then date_values ++ year_tokens (str_of_year y) else date_values
           | None => date_values
           end)
          = (if truthy_str_or_list (months a) then listify (months a) else [])
            ++ match year a with
               | Some y =>
                   if truthy_int_or_str (year a)
                   then year_tokens (str_of_year y) else []
               | None => []
               end) as Heq.
  { simpl. destruct (year a); [destruct (truthy_int_or_str _)|];
      by rewrite ?app_nil_r. }
  simpl in *. rewrite Heq.
  destruct (start_date a) as [s|], (end_date a) as [e|]; try done.
  by rewrite Hr.
Qed.

(** X9: with every argument absent or false ([None], [''], [[]], [0]) and
    not both boundaries given, [set_query] leaves the empty query, prints
    nothing and returns: the query for all data. *)
Theorem set_query_no_filter a self :
  truthy_str_or_list (municipalities a) = false →
  truthy_str_or_list (months a) = false →
  truthy_int_or_str (year a) = false →
  range_given a = false →
  set_query to_datetime a self
  = (Return (), set_query_field empty_query self, []).
Proof.
  intros Hmuni Hmonths Hyear Hrange.
  rewrite set_query_run, (date_values_no_range a Hrange).
  unfold months_and_year_tokens, komuna_part, resolved_codes, warnings.
  rewrite Hmuni, Hmonths, Hyear. by destruct (year a).
Qed.

(** Without a range the selections come from the other arguments. *)
Lemma set_query_items_no_range a self :
  range_given a = false →
  query_items (query (self_after (set_query to_datetime a) self))
  = komuna_part (municipality_reverse_map self) a
    ++ (if bool_decide (months_and_year_tokens a ≠ [])
        then [viti_muaji_selection (sorted_set (months_and_year_tokens a))]
        else []).
Proof.
  intros Hrange.
  by rewrite set_query_query, (date_values_no_range a Hrange).
Qed.

(** X10: a lone boundary is ignored, unparsed: when [start_date] or
    [end_date] is absent or empty the call returns, whatever the other
    boundary is, and the period selection holds the tokens of [months] and
    [year] only. *)
Theorem set_query_lone_boundary a self :
  range_given a = false →
  result_of (set_query to_datetime a) self = Return ()
  ∧ query_items (query (self_after (set_query to_datetime a) self))
    = komuna_part (municipality_reverse_map self) a
      ++ (if bool_decide (months_and_year_tokens a ≠ [])
          then [viti_muaji_selection (sorted_set (months_and_year_tokens a))]
          else []).
Proof.
  intros Hrange.
  by rewrite set_query_result, set_query_query, (date_values_no_range a Hrange).
Qed.

(** X11: a [year] alone gives the twelve tokens [<year>M01] to [<year>M12],
    in this order, for every year that is true (a non-zero [int], a
    non-empty [str]). *)
Theorem set_query_year a self (y : int_or_str) :
  year a = Some y → truthy_int_or_str (year a) = true →
  truthy_str_or_list (months a) = false → range_given a = false →
  query_items (query (self_after (set_query to_datetime a) self))
  = komuna_part (municipality_reverse_map self) a
    ++ [viti_muaji_selection
          ((λ m, str_of_year y ++ py "M" ++ m)
           <$> [py "01"; py "02"; py "03"; py "04"; py "05"; py "06";
                py "07"; py "08"; py "09"; py "10"; py "11"; py "12"])].
Proof.
  intros Hy Hty Hmonths Hrange.
  rewrite (set_query_items_no_range a self Hrange).
  assert (months_and_year_tokens a = year_tokens (str_of_year y)) as ->.
  { unfold months_and_year_tokens. rewrite Hmonths, Hy.
    rewrite Hy in Hty. by rewrite Hty. }
  destruct (year_tokens_sorted (str_of_year y)) as [Hsorted Hnd].
  rewrite sorted_set_id by done.
  assert ([py "01"; py "02"; py "03"; py "04"; py "05"; py "06";
           py "07"; py "08"; py "09"; py "10"; py "11"; py "12"]
          = (λ m, zfill 2 (str_of_Z m)) <$> seqZ 1 12) as ->
    by (by vm_compute).
  rewrite <-list_fmap_compose. fold (year_tokens (str_of_year y)).
  rewrite bool_decide_true; [done|].
  unfold year_tokens. by rewrite seqZ_cons.
Qed.

(** X12: when [pd.to_datetime] raises on a boundary, [set_query] raises the
    same exception and leaves the query with the geography selection only:
    the tokens of [months] and [year] are not in it. *)
Theorem set_query_bad_boundary a self (s e : pystr) (err : exn) :
  start_date a = Some s → end_date a = Some e → range_given a = true →
  to_datetime s = Raise err
  ∨ (∃ start, to_datetime s = Return start) ∧ to_datetime e = Raise err →
  result_of (set_query to_datetime a) self = Raise err
  ∧ query_items (query (self_after (set_query to_datetime a) self))
    = komuna_part (municipality_reverse_map self) a
  ∧ printed (set_query to_datetime a) self
    = warnings (municipality_reverse_map self) a.
Proof.
  intros Hs He Hrange Hraise.
  assert (date_values to_datetime a = Raise err) as Hdv.
  { unfold date_values. unfold range_given in Hrange.
    rewrite Hs, He in *. simpl. rewrite Hrange.
    destruct Hraise as [->|[[start ->] ->]]; done. }
  rewrite set_query_result, set_query_query, set_query_printed, Hdv.
  simpl. by rewrite app_nil_r.
Qed.
End set_query_more.

Lemma set_query_period_values_witness :
  let a := {| municipalities := None;
              months := Some (Strs [py "2023M03"; py "2023M01"; py "2023M03"]);
              year := None;
              start_date := Some (py "2023-01-31");
              end_date := Some (py "2023-02-28") |} in
  date_values to_datetime_iso a
  = Return [py "2023M03"; py "2023M01"; py "2023M03"; py "2023M01"; py "2023M02"]
  ∧ last (query_items (query (self_after (set_query to_datetime_iso a)
                                          (init (py "sq")))))
    = Some (viti_muaji_selection [py "2023M01"; py "2023M02"; py "2023M03"]).
Proof.
  intros a.
  assert (date_values to_datetime_iso a
          = Return [py "2023M03"; py "2023M01"; py "2023M03"; py "2023M01";
                    py "2023M02"]) as Hdv by (by vm_compute).
  split; [exact Hdv|].
  destruct (set_query_period_values to_datetime_iso a (init (py "sq")) _ Hdv)
    as (tokens & Hlast & _); [discriminate|].
  rewrite Hlast. vm_compute in Hlast. by injection Hlast as <-.
Defined.

Lemma set_query_no_filter_witness :
  let a := {| municipalities := Some (Strs []); months := Some (Str (py ""));
              year := Some (Int 0); start_date := Some (py "2023-01");
              end_date := None |} in
  let self := self_after (set_query to_datetime_iso
                            {| municipalities := Some (Str (py "Prizren"));
                               months := None; year := Some (Int 2023);
                               start_date := None; end_date := None |})
                (init (py "sq")) in
  query self ≠ empty_query
  ∧ query (self_after (set_query to_datetime_iso a) self) = empty_query
  ∧ printed (set_query to_datetime_iso a) self = [].
Proof.
  intros a self.
  pose proof (set_query_no_filter to_datetime_iso a self
                eq_refl eq_refl eq_refl eq_refl) as Hrun.
  split; [by vm_compute|].
  unfold self_after, printed. rewrite Hrun. by split.
Defined.

Lemma set_query_lone_boundary_witness :
  let a := {| municipalities := None; months := Some (Str (py "2024M05"));
              year := None; start_date := Some (py "not a date");
              end_date := Some (py "") |} in
  result_of (set_query to_datetime_iso a) (init (py "sq")) = Return ()
  ∧ to_datetime_iso (py "not a date") = Raise ValueError
  ∧ query_items (query (self_after (set_query to_datetime_iso a)
                                   (init (py "sq"))))
    = [viti_muaji_selection [py "2024M05"]].
Proof.
  intros a.
  destruct (set_query_lone_boundary to_datetime_iso a (init (py "sq")) eq_refl)
    as [Hret Hq].
  split; [exact Hret|]. split; [by vm_compute|].
  rewrite Hq. by vm_compute.
Defined.

Lemma set_query_year_witness :
  let a := {| municipalities := None; months := None;
              year := Some (IStr (py "2023"));
              start_date := None; end_date := None |} in
  query_items (query (self_after (set_query to_datetime_iso a)
                                 (init (py "sq"))))
  = [viti_muaji_selection
       [py "2023M01"; py "2023M02"; py "2023M03"; py "2023M04";
        py "2023M05"; py "2023M06"; py "2023M07"; py "2023M08";
        py "2023M09"; py "2023M10"; py "2023M11"; py "2023M12"]].
Proof.
  intros a.
  rewrite (set_query_year to_datetime_iso a (init (py "sq")) (IStr (py "2023"))
             eq_refl eq_refl eq_refl eq_refl).
  by vm_compute.
Defined.

Lemma set_query_bad_boundary_witness :
  let a := {| municipalities := Some (Str (py "Prizren"));
              months := None; year := Some (Int 2023);
              start_date := Some (py "2023-01");
              end_date := Some (py "2023-13") |} in
  result_of (set_query to_datetime_iso a) (init (py "sq")) = Raise ValueError
  ∧ query_items (query (self_after (set_query to_datetime_iso a)
                                   (init (py "sq"))))
    = [komuna_selection [py "19"]].
Proof.
  intros a.
  destruct (set_query_bad_boundary to_datetime_iso a (init (py "sq"))
              (py "2023-01") (py "2023-13") ValueError eq_refl eq_refl eq_refl)
    as (Hres & Hq & _).
  { right. split; [eexists|]; by vm_compute. }
  split; [exact Hres|]. rewrite Hq. by vm_compute.
Defined.

(** ** More on the date range *)

Section date_range_more.
Implicit Types (t u : Timestamp) (i : Z).

Lemma ts_le_trans t u v : ts_le t u → ts_le u v → ts_le t v.
Proof. unfold ts_le. lia. Qed.

(** On calendar months the order of dates is the order of the month
    indices, then of the days. *)
Lemma ts_le_index t u :
  1 ≤ ts_month t ≤ 12 → 1 ≤ ts_month u ≤ 12 →
  ts_le t u ↔ month_index t < month_index u
              ∨ month_index t = month_index u ∧ ts_day t ≤ ts_day u.
Proof. unfold ts_le, month_index. lia. Qed.

Lemma days_in_month_bounds y m : 28 ≤ days_in_month y m ≤ 31.
Proof.
  unfold days_in_month.
  destruct (m =? 2); [destruct (is_leap_year y); lia|].
  destruct ((m =? 4) || (m =? 6) || (m =? 9) || (m =? 11)); lia.
Qed.

Lemma month_end_month i : 1 ≤ ts_month (month_end i) ≤ 12.
Proof. simpl. pose proof (Z.mod_pos_bound i 12). lia. Qed.

Lemma filter_all {A} (f : A → bool) (l : list A) :
  Forall (λ x, f x = true) l → List.filter f l = l.
Proof. induction 1 as [|x l Hx _ IH]; simpl; [done|]. by rewrite Hx, IH. Qed.

(** The last day of month [i] is in the range from [start] to [end_]
    exactly when [i] lies between their months, the month of [end_] itself
    only counting when [end_] is its last day. *)
Lemma in_range_month_end (start end_ : Timestamp) i :
  valid_date start → valid_date end_ →
  ts_leb start (month_end i) && ts_leb (month_end i) end_ = true
  ↔ month_index start ≤ i
    ∧ (i < month_index end_
       ∨ i = month_index end_
         ∧ ts_day end_ = days_in_month (ts_year end_) (ts_month end_)).
Proof.
  intros [Hsm Hsd] [Hem Hed].
  rewrite andb_true_iff, !ts_leb_true.
  rewrite !ts_le_index by (done || apply month_end_month).
  rewrite month_index_month_end.
  pose proof (month_end_month_index start Hsm) as Hs.
  pose proof (month_end_month_index end_ Hem) as He.
  split.
  - intros [Hsi Hie]. split; [lia|].
    destruct Hie as [?|[-> Hday]]; [by left|right].
    split; [done|]. rewrite He in Hday. simpl in Hday. lia.
  - intros [Hsi Hie]. split.
    + destruct (decide (month_index start = i)) as [<-|]; [|lia].
      right. split; [done|]. rewrite Hs. simpl. lia.
    + destruct Hie as [?|[-> Hday]]; [by left|right].
      split; [done|]. rewrite He. simpl. lia.
Qed.

(** X13: between two calendar dates the month-end range of [set_query]
    holds the months from the month of [start] up to the month BEFORE the
    month of [end_], and the month of [end_] only when [end_] is the last
    day of its month. *)
Theorem date_range_M_months (start end_ : Timestamp) :
  valid_date start → valid_date end_ →
  date_range_M start end_
  = month_end <$>
      seqZ (month_index start)
           (month_index end_ - month_index start
            + (if ts_day end_ =? days_in_month (ts_year end_) (ts_month end_)
               then 1 else 0)).
Proof.
  intros Hs He. unfold date_range_M.
  set (a := month_index start). set (b := month_index end_).
  destruct (decide (b < a)) as [Hlt|Hge].
  { rewrite !seqZ_nil; [done| |lia]. case_match; lia. }
  replace (b - a + 1) with ((b - a) + 1) by lia.
  rewrite seqZ_app by lia. replace (a + (b - a)) with b by lia.
  rewrite (seqZ_cons b 1), (seqZ_nil _ (Z.pred 1)) by lia.
  rewrite fmap_app, List.filter_app, filter_all.
  - simpl.
    destruct (ts_leb start (month_end b) && ts_leb (month_end b) end_) eqn:Hb.
    + apply in_range_month_end in Hb; [|done..].
      destruct Hb as [_ [Hlt|[_ ->]]]; [unfold b in Hlt; lia|].
      rewrite Z.eqb_refl, seqZ_app by lia.
      replace (a + (b - a)) with b by lia.
      by rewrite (seqZ_cons b 1), (seqZ_nil _ (Z.pred 1)), fmap_app by lia.
    + destruct (Z.eqb_spec (ts_day end_)
                  (days_in_month (ts_year end_) (ts_month end_))) as [Hd|_].
      * assert (ts_leb start (month_end b) && ts_leb (month_end b) end_ = true)
          as Hb'; [|by rewrite Hb in Hb'].
        apply in_range_month_end; [done..|]. fold a b. split; [lia|]. by right.
      * by rewrite Z.add_0_r, app_nil_r.
  - apply Forall_fmap, Forall_forall. intros i Hi%elem_of_seqZ. simpl.
    apply in_range_month_end; [done..|]. fold a b. lia.
Qed.

Lemma date_range_M_months_witness :
  date_range_M (mkTimestamp 2023 11 15) (mkTimestamp 2024 2 29)
  = [mkTimestamp 2023 11 30; mkTimestamp 2023 12 31; mkTimestamp 2024 1 31;
     mkTimestamp 2024 2 29]
  ∧ date_range_M (mkTimestamp 2023 11 15) (mkTimestamp 2024 2 28)
    = [mkTimestamp 2023 11 30; mkTimestamp 2023 12 31; mkTimestamp 2024 1 31].
Proof.
  split.
  - rewrite (date_range_M_months (mkTimestamp 2023 11 15) (mkTimestamp 2024 2 29))
      by (apply (bool_decide_unpack _); by vm_compute).
    by vm_compute.
  - rewrite (date_range_M_months (mkTimestamp 2023 11 15) (mkTimestamp 2024 2 28))
      by (apply (bool_decide_unpack _); by vm_compute).
    by vm_compute.
Defined.

(** A start after the end: the range is empty. *)
Lemma date_range_M_reversed (start end_ : Timestamp) :
  ¬ ts_le start end_ → date_range_M start end_ = [].
Proof.
  intros Hgt. apply elem_of_nil_inv. intros t Ht.
  apply date_range_M_elem in Ht as (i & _ & _ & H1%Is_true_true & H2%Is_true_true).
  apply ts_leb_true in H1, H2. by eapply Hgt, ts_le_trans.
Qed.
End date_range_more.

Section set_query_range.
Variable to_datetime : pystr → outcome Timestamp.
Implicit Types (self : ASK) (a : set_query_args).

(** The date part with both boundaries given and parsed. *)
Lemma date_values_range a (s e : pystr) (start end_ : Timestamp) :
  start_date a = Some s → end_date a = Some e → range_given a = true →
  to_datetime s = Return start → to_datetime e = Return end_ →
  date_values to_datetime a
  = Return (months_and_year_tokens a
            ++ (strftime_YMm <$> date_range_M start end_)).
Proof.
  intros Hs He Hrange Hstart Hend.
  pose proof (date_values_no_range to_datetime
                {| municipalities := municipalities a; months := months a;
                   year := year a; start_date := None; end_date := None |}
                eq_refl) as Hstatic.
  unfold date_values, range_given, months_and_year_tokens in *.
  simpl in Hstatic. injection Hstatic as Hstatic.
  rewrite Hs, He in *. rewrite Hrange, Hstart. simpl. rewrite Hend. simpl.
  by rewrite Hstatic.
Qed.

(** X14: when the start boundary is later than the end boundary the range
    adds no token and raises nothing: the query is the one built from the
    other arguments. *)
Theorem set_query_reversed_range a self (s e : pystr) (start end_ : Timestamp) :
  start_date a = Some s → end_date a = Some e → range_given a = true →
  to_datetime s = Return start → to_datetime e = Return end_ →
  ¬ ts_le start end_ →
  result_of (set_query to_datetime a) self = Return ()
  ∧ query_items (query (self_after (set_query to_datetime a) self))
    = komuna_part (municipality_reverse_map self) a
      ++ (if bool_decide (months_and_year_tokens a ≠ [])
          then [viti_muaji_selection (sorted_set (months_and_year_tokens a))]
          else []).
Proof.
  intros Hs He Hrange Hstart Hend Hgt.
  rewrite set_query_result, set_query_query.
  rewrite (date_values_range a s e start end_) by done.
  by rewrite date_range_M_reversed, app_nil_r.
Qed.
End set_query_range.

Lemma set_query_reversed_range_witness :
  let a := {| municipalities := None; months := None; year := None;
              start_date := Some (py "2023-12");
              end_date := Some (py "2023-01-31") |} in
  result_of (set_query to_datetime_iso a) (init (py "sq")) = Return ()
  ∧ query (self_after (set_query to_datetime_iso a) (init (py "sq")))
    = empty_query.
Proof.
  intros a.
  destruct (set_query_reversed_range to_datetime_iso a (init (py "sq"))
              (py "2023-12") (py "2023-01-31")
              (mkTimestamp 2023 12 1) (mkTimestamp 2023 1 31)
              eq_refl eq_refl eq_refl) as [Hres Hq].
  { by vm_compute. }
  { by vm_compute. }
  { intros Hle%ts_leb_true. by vm_compute in Hle. }
  split; [exact Hres|]. by vm_compute.
Defined.

(** ** More on the tabulation *)

Section get_data_as_df_more.
Implicit Types (int_str : pystr → outcome Z) (self : ASK).
Implicit Types (data item : pyval) (df : list DataRecord).

(** X15: a response whose ['data'] holds no row makes [get_data_as_df]
    raise [KeyError]; it does not return an empty frame. *)
Theorem get_data_as_df_no_row int_str self data :
  response_items data = Return [] →
  get_data_as_df int_str self data = Raise KeyError.
Proof.
  intros Hitems. unfold get_data_as_df.
  by rewrite (response_items_truthy _ _ Hitems), Hitems.
Qed.

Lemma get_data_as_df_no_row_witness :
  get_data_as_df int_ascii (init (py "sq"))
    (PDict [(py "columns", PList [PStr (py "Viti-muaji")]);
            (py "data", PList [])])
  = Raise KeyError
  ∧ get_data_as_df int_ascii (init (py "sq")) (PDict [(py "data", PDict [])])
    = Raise KeyError.
Proof.
  split; by apply get_data_as_df_no_row.
Defined.

(** X16: a response of well-formed rows, at least one, is tabulated to a
    frame that holds the records of the rows of the response, each row
    once: its records are a reordering of the records made row by row,
    and no row is dropped or repeated. *)
Theorem get_data_as_df_records int_str self data items rows :
  response_items data = Return items →
  traverse (process_item int_str self) items = Return rows →
  items ≠ [] → Forall well_formed_row rows →
  ∃ df recs,
    get_data_as_df int_str self data = Return (Some df)
    ∧ traverse (record_of_item int_str self) items = Return recs
    ∧ df ≡ₚ recs ∧ length df = length items.
Proof.
  intros Hitems Hrows Hne Hwf.
  destruct (get_data_as_df_well_formed _ _ _ _ _ Hitems Hrows Hne Hwf)
    as (recs & Hrecs & Hdf).
  exists (sort_values recs), recs. split; [done|].
  split; [by eapply traverse_compose|].
  split; [apply sort_values_Permutation|].
  rewrite sort_values_Permutation.
  by rewrite (traverse_length _ _ _ Hrecs), (traverse_length _ _ _ Hrows).
Qed.

Lemma get_data_as_df_records_witness :
  ∃ df recs,
    get_data_as_df int_ascii (init (py "sq")) (response three_rows)
    = Return (Some df)
    ∧ traverse (record_of_item int_ascii (init (py "sq"))) three_rows
      = Return recs
    ∧ df ≡ₚ recs ∧ length df = length three_rows.
Proof.
  apply (get_data_as_df_records int_ascii (init (py "sq"))
           (response three_rows) three_rows three_rows_rows).
  - reflexivity.
  - by vm_compute.
  - done.
  - apply three_rows_well_formed.
Defined.

(** The dates of the records of well-formed rows are the months of their
    periods. *)
Lemma record_of_row_dates (rows : list Row) (recs : list DataRecord) :
  Forall well_formed_row rows →
  traverse record_of_row rows = Return recs →
  Forall (λ r, month_start (Date r)) recs
  ∧ (λ r, PStr (strftime_YMm (Date r))) <$> recs = row_Date <$> rows.
Proof.
  intros Hwf. revert recs.
  induction Hwf as [|row rows Hrow _ IH]; intros recs.
  - by intros [= <-].
  - intros (r & recs' & Hr & Hrecs & ->)%traverse_cons_Return.
    destruct (IH _ Hrecs) as [IHd IHs].
    destruct (record_of_well_formed_row row Hrow)
      as (s & t & Hs & [Ht ->] & Hrec).
    rewrite Hr in Hrec. injection Hrec as ->.
    split; [by constructor|]. rewrite !fmap_cons. cbn [Date].
    by rewrite Hs, IHs.
Qed.

(** X17: in the frame of a response of well-formed rows every [Date] is
    the first day of a month between October 1677 and April 2262, and the
    [Date] column, written back as period tokens, is the period column of
    the response up to the order of the rows. *)
Theorem get_data_as_df_dates int_str self data items rows :
  response_items data = Return items →
  traverse (process_item int_str self) items = Return rows →
  items ≠ [] → Forall well_formed_row rows →
  ∃ df,
    get_data_as_df int_str self data = Return (Some df)
    ∧ Forall (λ r, month_start (Date r)) df
    ∧ (λ r, PStr (strftime_YMm (Date r))) <$> df ≡ₚ row_Date <$> rows.
Proof.
  intros Hitems Hrows Hne Hwf.
  destruct (get_data_as_df_well_formed _ _ _ _ _ Hitems Hrows Hne Hwf)
    as (recs & Hrecs & Hdf).
  destruct (record_of_row_dates rows recs Hwf Hrecs) as [Hd Hs].
  exists (sort_values recs). split; [done|].
  rewrite sort_values_Permutation. split; [done|]. by rewrite Hs.
Qed.

Lemma get_data_as_df_dates_witness :
  ∃ df,
    get_data_as_df int_ascii (init (py "sq")) (response three_rows)
    = Return (Some df)
    ∧ Forall (λ r, month_start (Date r)) df
    ∧ (λ r, PStr (strftime_YMm (Date r))) <$> df
      ≡ₚ row_Date <$> three_rows_rows.
Proof.
  apply (get_data_as_df_dates int_ascii (init (py "sq"))
           (response three_rows) three_rows three_rows_rows).
  - reflexivity.
  - by vm_compute.
  - done.
  - apply three_rows_well_formed.
Defined.

(** X18: a row keeps the period and the code it was given, and its metric
    is absent exactly when the value of the item is the string [":"]. *)
Theorem process_item_row int_str self item date municipality_code marriages
    row :
  item_parts item date municipality_code marriages →
  process_item int_str self item = Return row →
  row_Date row = date
  ∧ row_Municipality_Code row = municipality_code
  ∧ municipality_name self municipality_code = Return (row_Municipality row)
  ∧ (row_Marriages row = None ↔ marriages = PStr (py ":")).
Proof.
  intros (key & vals & Hkey & Hdate & Hcode & Hvals & Hm).
  unfold process_item. rewrite Hkey. simpl. rewrite Hdate. simpl.
  rewrite Hcode. simpl. rewrite Hvals. simpl. rewrite Hm. simpl.
  assert (is_colon marriages = true ↔ marriages = PStr (py ":")) as Hcolon.
  { destruct marriages as [| | |s| |]; simpl; try (split; done).
    rewrite bool_decide_eq_true. split; congruence. }
  destruct (is_colon marriages) eqn:Hc; simpl.
  - destruct (municipality_name self municipality_code) as [name|]; [|done].
    intros [= <-]. simpl. split; [done|]. split; [done|]. split; [done|].
    split; [intros _; by apply Hcolon|done].
  - destruct (int_of int_str marriages) as [n|]; [|done]. simpl.
    destruct (municipality_name self municipality_code) as [name|]; [|done].
    intros [= <-]. simpl. split; [done|]. split; [done|]. split; [done|].
    split; [done|]. intros Heq. by apply (proj2 Hcolon) in Heq.
Qed.

Lemma process_item_row_witness :
  ∃ row, process_item int_ascii (init (py "sq")) (item "2023M01" "77" "0")
         = Return row
         ∧ row_Municipality row = py "Unknown (77)"
         ∧ row_Marriages row = Some 0.
Proof.
  eexists. split; [by vm_compute|].
  epose proof (process_item_row int_ascii (init (py "sq"))
                 (item "2023M01" "77" "0")
                 (PStr (py "2023M01")) (PStr (py "77")) (PStr (py "0")) _
                 ltac:(by eexists _, _) ltac:(by vm_compute)) as (_ & _ & _ & _).
  by vm_compute.
Defined.

(** X19: a row whose period has the shape [YYYYMmm] but names no month
    ([00], or above [12]) makes the whole call raise [ValueError], when
    every row has been read and is well formed but for such a month. *)
Theorem get_data_as_df_bad_period int_str self data items rows :
  response_items data = Return items →
  traverse (process_item int_str self) items = Return rows →
  Forall (λ r, well_formed_row r ∨ bad_month_row r) rows →
  Exists bad_month_row rows →
  get_data_as_df int_str self data = Raise ValueError.
Proof.
  intros Hitems Hrows Hall Hbad.
  unfold get_data_as_df.
  rewrite (response_items_truthy _ _ Hitems), Hitems. simpl.
  rewrite Hrows. simpl. unfold frame_of_rows.
  destruct rows as [|r0 rows]; [by apply Exists_nil in Hbad|].
  assert (forallb (λ r, is_str (row_Date r)) (r0 :: rows) = true) as ->.
  { apply Is_true_true, forallb_True. eapply Forall_impl; [exact Hall|].
    intros r [((s & t & -> & _) & _)|((s & y & m & -> & _) & _)]; done. }
  rewrite (traverse_Raise_only record_of_row ValueError); [done| |].
  - intros r e' Hin. rewrite Forall_forall in Hall.
    destruct (Hall r Hin) as [Hwf|((s & y & m & Hs & Hshape & Hm) & _)].
    + destruct (record_of_well_formed_row r Hwf) as (? & ? & _ & _ & ->).
      done.
    + unfold record_of_row.
      rewrite Hs, (period_shape_to_datetime s y m Hshape Hm). congruence.
  - apply Exists_exists in Hbad
      as (r & Hin & (s & y & m & Hs & Hshape & Hm) & _).
    exists r. split; [done|]. unfold record_of_row.
    by rewrite Hs, (period_shape_to_datetime s y m Hshape Hm).
Qed.

Lemma get_data_as_df_bad_period_witness :
  get_data_as_df int_ascii (init (py "sq"))
    (response [item "2023M01" "18" "42"; item "2023M13" "1" "5"])
  = Raise ValueError.
Proof.
  apply (get_data_as_df_bad_period int_ascii (init (py "sq")) _
           [item "2023M01" "18" "42"; item "2023M13" "1" "5"]
           [mkRow (PStr (py "2023M01")) (PStr (py "18")) (py "Prishtinë")
              (Some 42);
            mkRow (PStr (py "2023M13")) (PStr (py "1")) (py "Gjakovë")
              (Some 5)]).
  - reflexivity.
  - by vm_compute.
  - constructor; [left|constructor; [right|constructor]].
    + apply (well_formed_row_intro _ (mkTimestamp 2023 1 1)); [done|].
      intros n [= <-]. lia.
    + apply (bad_month_row_intro _ 2023 13); [|lia|intros n [= <-]; lia].
      by eexists _, _, _, _, _, _.
  - apply Exists_cons_tl, Exists_cons_hd.
    apply (bad_month_row_intro _ 2023 13); [|lia|intros n [= <-]; lia].
    by eexists _, _, _, _, _, _.
Defined.
End get_data_as_df_more.

(** ** The round trip of a period token *)

(** X20: the token that [set_query] writes for a date ([strftime('%YM%m')])
    is read by the date conversion of [get_data_as_df] as the first day of
    the month of that date, for every month from October 1677 to April
    2262. *)
Theorem period_token_read_back (t : Timestamp) :
  1 ≤ ts_month t ≤ 12 →
  1677 * 12 + 9 ≤ month_index t ≤ 2262 * 12 + 3 →
  to_datetime_Ym (replace_M (strftime_YMm t))
  = Some (mkTimestamp (ts_year t) (ts_month t) 1).
Proof.
  intros Hm Hi. unfold month_index in Hi.
  pose proof (reads_back_all _ Hi) as Hall.
  replace ((ts_year t * 12 + (ts_month t - 1)) `div` 12) with (ts_year t)
    in Hall by (apply (Z.div_unique _ 12 _ (ts_month t - 1)); lia).
  replace ((ts_year t * 12 + (ts_month t - 1)) `mod` 12 + 1)
    with (ts_month t) in Hall
    by (rewrite <-(Z.mod_unique _ 12 (ts_year t) (ts_month t - 1)); lia).
  unfold reads_back in Hall.
  by apply bool_decide_eq_true in Hall.
Qed.

Lemma period_token_read_back_witness :
  to_datetime_Ym (replace_M (strftime_YMm (mkTimestamp 2023 3 31)))
  = Some (mkTimestamp 2023 3 1).
Proof.
  apply (period_token_read_back (mkTimestamp 2023 3 31));
    unfold month_index; simpl; lia.
Defined.

(** ** Names of municipality codes *)

(** No registered name has the form of the name given to an unknown code. *)
Lemma municipality_names_not_Unknown :
  Forall (λ name, ¬ py "Unknown (" `prefix_of` name) municipality_items.*2.
Proof. apply (bool_decide_unpack _). by vm_compute. Qed.

Lemma Return_inj {A} (a b : A) : Return a = Return b → a = b.
Proof. by intros [=]. Qed.

(** The registry gives no name to two codes. *)
Lemma municipality_map_inj lang c1 c2 name :
  municipality_map (init lang) !! c1 = Some name →
  municipality_map (init lang) !! c2 = Some name → c1 = c2.
Proof.
  intros H1%municipality_map_items H2%municipality_map_items.
  pose proof municipality_names_NoDup_exact as Hnd.
  apply list_elem_of_lookup in H1 as [i Hi], H2 as [j Hj].
  assert (i = j) as ->; [|congruence].
  apply (NoDup_lookup _ _ _ name Hnd); by rewrite list_lookup_fmap, ?Hi, ?Hj.
Qed.

(** X21: on codes that are strings the name that [get_data_as_df] puts in
    the [Municipality] column determines the code: two codes get one name
    only if they are one code, whether the registry knows them or not. *)
Theorem municipality_name_inj (lang c1 c2 : pystr) :
  municipality_name (init lang) (PStr c1)
  = municipality_name (init lang) (PStr c2) ↔ c1 = c2.
Proof.
  split; [|by intros ->].
  assert (∀ c c' name,
    municipality_map (init lang) !! c = Some name →
    name ≠ py "Unknown (" ++ c' ++ py ")") as Hknown.
  { intros c c' name Hin%municipality_map_items ->.
    pose proof municipality_names_not_Unknown as Hno.
    rewrite Forall_forall in Hno.
    apply (Hno (py "Unknown (" ++ c' ++ py ")")).
    - apply list_elem_of_fmap. by eexists (_, _).
    - by eexists. }
  unfold municipality_name.
  destruct (municipality_map (init lang) !! c1) as [n1|] eqn:H1,
           (municipality_map (init lang) !! c2) as [n2|] eqn:H2;
    cbv [default from_option id]; intros Heq%Return_inj; revert Heq.
  - intros <-. by eapply municipality_map_inj.
  - intros Heq. by destruct (Hknown _ _ _ H1 Heq).
  - intros Heq. symmetry in Heq. by destruct (Hknown _ _ _ H2 Heq).
  - intros Heq%app_inv_head. by apply app_inv_tail in Heq.
Qed.

(** A code that is an [int] shares its name with the string of its
    digits. *)
Example municipality_name_int_and_str lang :
  municipality_name (init lang) (PInt 77)
  = municipality_name (init lang) (PStr (py "77")).
Proof. by vm_compute. Qed.

(** ** The metadata of an endpoint *)

Section metadata.
Implicit Types (self : ASK) (response var : pyval) (d : variables_dict).
Implicit Types (k : pyval) (items : list (pyval * VariableEntry)).

Lemma key_eqb_sym k k' : key_eqb k k' = key_eqb k' k.
Proof.
  destruct k, k'; simpl; try done; apply bool_decide_ext; split; congruence.
Qed.

Lemma key_eqb_eq k k' k0 :
  key_eqb k k' = true → key_eqb k k0 = key_eqb k' k0.
Proof.
  destruct k, k'; simpl; try done; intros ?%bool_decide_eq_true; subst;
    try done; destruct k0; simpl; try done;
    apply bool_decide_ext; repeat case_match; split; congruence.
Qed.

Lemma getitem_setitem d k v k0 :
  getitem (setitem d k v) k0 = if key_eqb k k0 then Some v else getitem d k0.
Proof.
  induction d as [|[k' v'] d IH]; simpl; [done|].
  destruct (key_eqb k' k) eqn:Hk; simpl.
  - rewrite (key_eqb_eq _ _ k0 Hk). by destruct (key_eqb k k0).
  - rewrite IH. destruct (key_eqb k' k0) eqn:Hk0, (key_eqb k k0) eqn:Hkk0;
      try done.
    by rewrite (key_eqb_eq _ _ k Hk0), key_eqb_sym, Hkk0 in Hk.
Qed.

(** The entry found under a key is the entry stored last under it. *)
Lemma getitem_foldl_setitem items d k :
  getitem (foldl (λ d it, setitem d it.1 it.2) d items) k
  = match last (base.filter (λ it, key_eqb it.1 k) items) with
    | Some it => Some it.2
    | None => getitem d k
    end.
Proof.
  revert d. induction items as [|it items IH]; intros d; simpl; [done|].
  rewrite IH, getitem_setitem, filter_cons.
  destruct (decide (key_eqb it.1 k)) as [Hk|Hk].
  - rewrite (Is_true_true_1 _ Hk).
    by destruct (base.filter _ items) as [|? ?] eqn:Hf using rev_ind;
      [|rewrite app_comm_cons, !last_snoc].
  - rewrite (Is_true_false_1 _ Hk). done.
Qed.

(** The loop stores the items of the variables one after the other. *)
Lemma collect_variables_traverse (vars : list pyval) d :
  collect_variables d vars
  = items ← traverse variable_item vars;
    Return (foldl (λ d it, setitem d it.1 it.2) d items).
Proof.
  revert d. induction vars as [|var vars IH]; intros d; simpl; [done|].
  destruct (variable_item var) as [it|e]; simpl; [|done].
  rewrite IH. by destruct (traverse variable_item vars).
Qed.

(** The three ways out of [get_variables]. *)
Lemma get_variables_run response self :
  get_variables response self
  = if truthy response
    then match contains response (py "variables") with
         | Return true =>
             match (subscript_str response (py "variables") ≫= iterate)
                   ≫= collect_variables [] with
             | Return d => (Return (Some d), self, [])
             | Raise e => (Raise e, self, [])
             end
         | Return false => (Return None, self, [no_variables_error])
         | Raise e => (Raise e, self, [])
         end
    else (Return None, self, [no_variables_error]).
Proof.
  unfold get_variables.
  destruct (truthy response); [|done].
  destruct (contains response _) as [[]|e]; try done.
  unfold mbind at 1, M_bind; simpl.
  destruct (subscript_str response _) as [v|e]; [|done]. simpl.
  destruct (iterate v) as [vars|e]; [|done]. simpl.
  rewrite run_lift_Return.
  destruct (collect_variables [] vars) as [d|e]; [|done].
  by rewrite run_lift_Return.
Qed.

(** X22: the dict that [get_variables] returns holds, under each name, the
    entry of the last variable of the response that carries that name; an
    earlier variable of the same name is lost.  Nothing is printed. *)
Theorem get_variables_last_wins response self d :
  result_of (get_variables response) self = Return (Some d) →
  ∃ vars items,
    subscript_str response (py "variables") ≫= iterate = Return vars
    ∧ traverse variable_item vars = Return items
    ∧ (∀ k, getitem d k
            = snd <$> last (base.filter (λ it, key_eqb it.1 k) items))
    ∧ printed (get_variables response) self = [].
Proof.
  unfold result_of, printed. rewrite get_variables_run.
  destruct (truthy response); [|done].
  destruct (contains response _) as [[]|e]; try done.
  destruct (subscript_str response _ ≫= iterate) as [vars|e] eqn:Hvars;
    [|done].
  simpl. rewrite collect_variables_traverse.
  destruct (traverse variable_item vars) as [items|e] eqn:Hitems; simpl;
    [|by intros [=]].
  intros [= <-]. exists vars, items. split; [done|]. split; [done|].
  split; [|done]. intros k. rewrite getitem_foldl_setitem.
  by destruct (last _).
Qed.

Lemma get_variables_last_wins_witness :
  ∃ vars items,
    subscript_str two_periods (py "variables") ≫= iterate = Return vars
    ∧ traverse variable_item vars = Return items
    ∧ (∀ k, getitem
              [(PStr (py "Viti-muaji"),
                mkVariableEntry (PStr (py "Viti-muaji"))
                  (PList [PStr (py "0"); PStr (py "1")])
                  (PList [PStr (py "2023M01"); PStr (py "2023M02")]));
               (PStr (py "Komuna"),
                mkVariableEntry (PStr (py "Komuna")) (PList [PStr (py "18")])
                  (PList [PStr (py "Prishtinë")]))] k
            = snd <$> last (base.filter (λ it, key_eqb it.1 k) items))
    ∧ printed (get_variables two_periods) (init (py "sq")) = [].
Proof.
  apply (get_variables_last_wins two_periods (init (py "sq"))).
  by vm_compute.
Defined.

(** X23: [get_variables] leaves the client as it is, and it prints its
    error line exactly when it returns [None], which it does for a falsy
    response and for one in which ['variables'] does not occur. *)
Theorem get_variables_None response self :
  self_after (get_variables response) self = self
  ∧ (result_of (get_variables response) self = Return None
     ↔ truthy response = false
       ∨ contains response (py "variables") = Return false)
  ∧ printed (get_variables response) self
    = match result_of (get_variables response) self with
      | Return None => [no_variables_error]
      | _ => []
      end.
Proof.
  unfold self_after, result_of, printed. rewrite get_variables_run.
  destruct (truthy response); [|by split; [|split; [split; eauto|]]].
  destruct (contains response _) as [[]|e]; simpl.
  - destruct (_ ≫= collect_variables []); simpl;
      (split; [done|]); (split; [|done]); split; try done;
      by intros [|].
  - split; [done|]. split; [|done]. split; eauto.
  - split; [done|]. split; [|done]. split; [done|]. by intros [|].
Qed.
(** A value that has an entry under a [str] key is a dict, not empty, in
    which the key occurs. *)
Lemma subscript_str_Return response (key : pystr) v :
  subscript_str response key = Return v →
  truthy response = true ∧ contains response key = Return true.
Proof.
  destruct response as [| | | | |d]; try done. simpl.
  destruct (dict_lookup d key) eqn:Hd; [|done]. by destruct d.
Qed.

(** X24: [get_available_months] returns the month list of the last
    variable of the response named ["Viti-muaji"], whatever variables of
    that name come before it, and [None] when no variable has that name. *)
Theorem get_available_months_last response self v vars items :
  subscript_str response (py "variables") = Return v →
  iterate v = Return vars →
  traverse variable_item vars = Return items →
  result_of (get_available_months response) self
  = Return
      match last (base.filter
                    (λ it, key_eqb it.1 (PStr (py "Viti-muaji"))) items) with
      | Some it => entry_valueTexts it.2
      | None => PNone
      end
  ∧ printed (get_available_months response) self = [].
Proof.
  intros Hv Hvars Hitems.
  destruct (subscript_str_Return _ _ _ Hv) as [Ht Hc].
  assert (get_variables response self
          = (Return (Some (foldl (λ d it, setitem d it.1 it.2) [] items)),
             self, [])) as Hrun.
  { rewrite get_variables_run, Ht, Hc, Hv. simpl. rewrite Hvars. simpl.
    by rewrite collect_variables_traverse, Hitems. }
  unfold result_of, printed, get_available_months.
  rewrite (run_bind _ _ _ _ _ _ Hrun). simpl.
  split; [|done]. f_equal.
  pose proof (getitem_foldl_setitem items [] (PStr (py "Viti-muaji"))) as Hget.
  remember (foldl (λ d it, setitem d it.1 it.2) [] items) as d eqn:Hd.
  clear Hd Hrun. destruct d as [|it0 d].
  - simpl in Hget. by destruct (last _).
  - rewrite Hget. by destruct (last _).
Qed.

Lemma get_available_months_last_witness :
  result_of (get_available_months two_periods) (init (py "sq"))
  = Return (PList [PStr (py "2023M01"); PStr (py "2023M02")])
  ∧ printed (get_available_months two_periods) (init (py "sq")) = [].
Proof.
  edestruct (get_available_months_last two_periods (init (py "sq")))
    as [Hresult Hprinted]; [by vm_compute ..|].
  split; [|exact Hprinted].
  etrans; [exact Hresult|]. by vm_compute.
Defined.
End metadata.

Section list_available_paths_properties.
Variable repr : pyval → pystr.
Implicit Types (self : ASK) (response : pyval) (paths : list pyval).

Lemma result_of_bind {A B} (m : M A) (f : A → M B) self :
  result_of (m ≫= f) self
  = match m self with
    | (Return a, self', _) => result_of (f a) self'
    | (Raise e, _, _) => Raise e
    end.
Proof.
  unfold result_of, mbind, M_bind.
  destruct (m self) as [[[a|e] self'] out]; [|done].
  by destruct (f a self') as [[??]?].
Qed.

(** The branch of a dataset endpoint returns [None] unless it raises. *)
Lemma dataset_branch_result response self paths :
  result_of
    (print (py "This is a dataset endpoint. Available variables:");;
     vars ← lift (subscript_str response (py "variables") ≫= iterate);
     print_variables repr vars;; mret None) self
  ≠ Return (Some paths).
Proof.
  rewrite result_of_bind. simpl. rewrite result_of_bind. unfold lift at 1.
  destruct (_ ≫= iterate) as [vars|e]; [|done].
  rewrite result_of_bind.
  by destruct (print_variables repr vars self) as [[[[]|e] ?] ?].
Qed.

Lemma contains_list paths (key : pystr) :
  contains (PList paths) key = Return false ↔ PStr key ∉ paths.
Proof.
  simpl. split.
  - intros [= Hex] Hin. apply not_true_iff_false in Hex. apply Hex.
    apply existsb_exists. exists (PStr key). rewrite <-list_elem_of_In.
    split; [done|]. by apply bool_decide_eq_true.
  - intros Hnot. f_equal. apply not_true_iff_false.
    intros (x & Hin%list_elem_of_In & Hx)%existsb_exists.
    destruct x; try done. apply bool_decide_eq_true in Hx. by subst.
Qed.

(** X25: [list_available_paths] returns a list exactly when the response
    is a list, not empty, none of whose entries is the string
    ["variables"]; the list it returns is then the response itself. *)
Theorem list_available_paths_folder response self paths :
  result_of (list_available_paths repr response) self
  = Return (Some paths)
  ↔ response = PList paths ∧ paths ≠ [] ∧ PStr (py "variables") ∉ paths.
Proof.
  unfold list_available_paths.
  destruct (truthy response) eqn:Ht; simpl.
  2: { split; [done|]. intros (-> & Hne & _). by destruct paths. }
  rewrite result_of_bind. unfold lift at 1.
  destruct (contains response _) as [[]|e] eqn:Hc.
  - split; [by intros ?%dataset_branch_result|].
    intros (-> & _ & Hnot%contains_list). congruence.
  - destruct response as [| | | |l|]; try done.
    + split; [done|]. by intros ([=] & _).
    + split.
      * intros [= <-]. split; [done|]. split; [by destruct l|].
        by apply contains_list.
      * by intros ([= <-] & _).
    + split; [done|]. by intros ([=] & _).
  - split; [done|]. intros (-> & _). done.
Qed.

(** X26: no response is a folder for [list_available_paths] and a dataset
    for [get_variables]: where the first returns a list the second returns
    [None] and prints its error line. *)
Theorem list_available_paths_no_variables response self self' paths :
  result_of (list_available_paths repr response) self
  = Return (Some paths) →
  result_of (get_variables response) self' = Return None
  ∧ printed (get_variables response) self' = [no_variables_error].
Proof.
  unfold list_available_paths, result_of at 2, printed.
  rewrite get_variables_run.
  destruct (truthy response) eqn:Ht; simpl; [|done].
  rewrite result_of_bind. unfold lift at 1.
  destruct (contains response _) as [[]|e] eqn:Hc; try done.
  by intros ?%dataset_branch_result.
Qed.
End list_available_paths_properties.

Lemma list_available_paths_no_variables_witness :
  result_of (get_variables folder_listing) (init (py "sq")) = Return None
  ∧ printed (get_variables folder_listing) (init (py "sq"))
    = [no_variables_error].
Proof.
  eapply (list_available_paths_no_variables (λ _, []) folder_listing
            (init (py "sq"))).
  by vm_compute.
Defined.

Example list_available_paths_examples (repr : pyval → pystr) self :
  list_available_paths repr two_periods self
  = (Return None, self,
     [py "This is a dataset endpoint. Available variables:";
      py "- Viti-muaji"; py "- Komuna"; py "- Viti-muaji"])
  ∧ list_available_paths repr (PDict [(py "title", PStr (py "t"))]) self
    = (Return None, self, [py "No paths available at current location"])
  ∧ list_available_paths repr (PList [PStr (py "variables")]) self
    = (Raise TypeError, self,
       [py "This is a dataset endpoint. Available variables:"]).
Proof. by vm_compute. Qed.
